(** * Verification of the B12 submission script (src/main.py)

    The script builds a six-field JSON payload from the process environment
    and the UTC clock, signs the serialized bytes with HMAC-SHA256 and POSTs
    them once; it then interprets the response.

    The embedding is shallow.  The four functions of the source
    ([iso8601_timestamp], [build_payload], [compute_signature], [main]) are
    Rocq definitions with the same names.  The CPython library calls they make
    ([str.encode], [bytes.decode], [hashlib.sha256], [hmac.new], [json.dumps],
    [json.loads], [datetime.isoformat], [str.replace], [os.environ], [print],
    [sys.exit]) are modelled as executable functions in the modules below;
    [urllib.request.urlopen] is the one call whose result comes from outside
    the process and is a field of the [World] record.

    The interpreter's limit on the digits of an [int] and on the depth of
    recursion, and the error handler of standard output, are fields of
    [World] too: [json.loads] and [print] raise where CPython raises.  Standard output and standard error are taken to be
    UTF-8 streams.

    Not modelled: what [urllib] does before it returns or raises (redirects,
    proxies), exceptions of [urlopen] and [read] other than [HTTPError] and
    [URLError], and [repr] of a [float], a [list] or a [dict] (a variable of
    the [Program] section).  An uncaught exception is the outcome [Raise];
    the traceback the interpreter then prints is not part of [stderr].

    The first part of the file holds the definitions, the second the
    lemmas about the library calls, the theorems on the four functions, and
    further properties of the script. *)

From Stdlib Require Import ZArith NArith List Ascii String Bool Lia.
From Stdlib.Strings Require Import Byte.
From stdpp Require Import base option gmap strings.
Import ListNotations.

#[local] Open Scope N_scope.
#[local] Open Scope list_scope.

(** ** Python values: [str] and [bytes] *)

(** A Python [str] is a sequence of Unicode code points (including lone
    surrogates, which [os.environ] produces for undecodable bytes). *)
Abbreviation pystr := (list N).

(** A Python [bytes] object. *)
Abbreviation pybytes := (list byte).

(** ASCII literals of the source text. *)
Definition lit (s : string) : pystr :=
  map (fun a => N_of_ascii a) (list_ascii_of_string s).

Definition byte_of_N (n : N) : byte :=
  match Byte.of_N n with
  | Some b => b
  | None => x00
  end.

Definition lit_bytes (s : string) : pybytes :=
  map (fun a => byte_of_N (N_of_ascii a)) (list_ascii_of_string s).

(** ** Exceptions and limits of the interpreter *)

(** The exceptions the script can meet. *)
Inductive exn : Type :=
| KeyError (key : pystr)
| UnicodeEncodeError
| UnicodeDecodeError
| JSONDecodeError
| ValueError
| RecursionError
| AttributeError
| HTTPError (code : N) (reason : pystr) (body : option pybytes)
| URLError (reason : pystr).

(** [sys.get_int_max_str_digits()] (0: no limit; 4300 unless configured),
    and the number of nested calls the interpreter still allows when
    [json.loads] is called. *)
Record limits : Type := mkLimits {
  int_max_str_digits : nat;
  recursion_depth : nat
}.

(** The check [int] makes on a decimal string of [digits] digits: above
    CPython's threshold of 640 digits, a limit that is set and exceeded
    raises [ValueError]. *)
Definition digits_exceed (lim : limits) (digits : nat) : bool :=
  (640 <? digits)%nat && (0 <? int_max_str_digits lim)%nat
  && (int_max_str_digits lim <? digits)%nat.

(** The error handler of [sys.stdout]: [strict] on a UTF-8 locale,
    [surrogateescape] on the C locale. *)
Inductive error_handler : Type := Strict | SurrogateEscape.

(** ** [str.encode("utf-8")] and [bytes.decode("utf-8")] (strict) *)

Module Utf8.

Definition is_surrogate (c : N) : bool := (0xD800 <=? c) && (c <=? 0xDFFF).

(** Code points that the strict encoder accepts. *)
Definition scalar (c : N) : bool := (c <? 0x110000) && negb (is_surrogate c).

Definition encode_char (c : N) : option pybytes :=
  if c <? 0x80 then Some [byte_of_N c]
  else if c <? 0x800 then
    Some [byte_of_N (0xC0 + c / 64); byte_of_N (0x80 + c mod 64)]
  else if is_surrogate c then None
  else if c <? 0x10000 then
    Some [byte_of_N (0xE0 + c / 4096);
          byte_of_N (0x80 + (c / 64) mod 64);
          byte_of_N (0x80 + c mod 64)]
  else if c <? 0x110000 then
    Some [byte_of_N (0xF0 + c / 262144);
          byte_of_N (0x80 + (c / 4096) mod 64);
          byte_of_N (0x80 + (c / 64) mod 64);
          byte_of_N (0x80 + c mod 64)]
  else None.

(** [s.encode("utf-8")]: [None] stands for [UnicodeEncodeError]. *)
Fixpoint encode (s : pystr) : option pybytes :=
  match s with
  | [] => Some []
  | c :: r =>
      match encode_char c, encode r with
      | Some b, Some br => Some (b ++ br)
      | _, _ => None
      end
  end.

Definition cont (b : N) : bool := (0x80 <=? b) && (b <=? 0xBF).
Definition between (lo hi b : N) : bool := (lo <=? b) && (b <=? hi).

(** [b.decode("utf-8")]: [None] stands for [UnicodeDecodeError].  Only
    well-formed sequences are accepted (no overlong forms, no surrogates,
    nothing above U+10FFFF). *)
Fixpoint decode (b : pybytes) : option pystr :=
  match b with
  | [] => Some []
  | b0 :: r0 =>
      let n0 := Byte.to_N b0 in
      if n0 <? 0x80 then option_map (cons n0) (decode r0)
      else
        match r0 with
        | [] => None
        | b1 :: r1 =>
            let n1 := Byte.to_N b1 in
            if between 0xC2 0xDF n0 then
              if cont n1
              then option_map (cons ((n0 - 0xC0) * 64 + (n1 - 0x80))) (decode r1)
              else None
            else
              match r1 with
              | [] => None
              | b2 :: r2 =>
                  let n2 := Byte.to_N b2 in
                  if between 0xE0 0xEF n0 then
                    if (if n0 =? 0xE0 then between 0xA0 0xBF n1
                        else if n0 =? 0xED then between 0x80 0x9F n1
                        else cont n1) && cont n2
                    then option_map
                           (cons ((n0 - 0xE0) * 4096 + (n1 - 0x80) * 64 + (n2 - 0x80)))
                           (decode r2)
                    else None
                  else
                    match r2 with
                    | [] => None
                    | b3 :: r3 =>
                        let n3 := Byte.to_N b3 in
                        if between 0xF0 0xF4 n0 then
                          if (if n0 =? 0xF0 then between 0x90 0xBF n1
                              else if n0 =? 0xF4 then between 0x80 0x8F n1
                              else cont n1) && cont n2 && cont n3
                          then option_map
                                 (cons ((n0 - 0xF0) * 262144 + (n1 - 0x80) * 4096
                                        + (n2 - 0x80) * 64 + (n3 - 0x80)))
                                 (decode r3)
                          else None
                        else None
                    end
              end
        end
  end.

End Utf8.

(** ** [hashlib.sha256] (FIPS 180-4), on 32-bit words held in [Z] *)

Module Sha256.
#[local] Open Scope Z_scope.

Definition mask32 : Z := 0xFFFFFFFF.
Definition add32 (x y : Z) : Z := Z.land (x + y) mask32.
Definition rotr (n x : Z) : Z :=
  Z.land (Z.lor (Z.shiftr x n) (Z.shiftl x (32 - n))) mask32.
Definition shr (n x : Z) : Z := Z.shiftr x n.
Definition not32 (x : Z) : Z := Z.lxor x mask32.

Definition Ch (x y z : Z) : Z := Z.lxor (Z.land x y) (Z.land (not32 x) z).
Definition Maj (x y z : Z) : Z :=
  Z.lxor (Z.lxor (Z.land x y) (Z.land x z)) (Z.land y z).
Definition Sigma0 (x : Z) : Z := Z.lxor (Z.lxor (rotr 2 x) (rotr 13 x)) (rotr 22 x).
Definition Sigma1 (x : Z) : Z := Z.lxor (Z.lxor (rotr 6 x) (rotr 11 x)) (rotr 25 x).
Definition sigma0 (x : Z) : Z := Z.lxor (Z.lxor (rotr 7 x) (rotr 18 x)) (shr 3 x).
Definition sigma1 (x : Z) : Z := Z.lxor (Z.lxor (rotr 17 x) (rotr 19 x)) (shr 10 x).

(** The round constants, four to a row. *)
Definition K : list Z :=
  concat
    [[0x428a2f98; 0x71374491; 0xb5c0fbcf; 0xe9b5dba5];
     [0x3956c25b; 0x59f111f1; 0x923f82a4; 0xab1c5ed5];
     [0xd807aa98; 0x12835b01; 0x243185be; 0x550c7dc3];
     [0x72be5d74; 0x80deb1fe; 0x9bdc06a7; 0xc19bf174];
     [0xe49b69c1; 0xefbe4786; 0x0fc19dc6; 0x240ca1cc];
     [0x2de92c6f; 0x4a7484aa; 0x5cb0a9dc; 0x76f988da];
     [0x983e5152; 0xa831c66d; 0xb00327c8; 0xbf597fc7];
     [0xc6e00bf3; 0xd5a79147; 0x06ca6351; 0x14292967];
     [0x27b70a85; 0x2e1b2138; 0x4d2c6dfc; 0x53380d13];
     [0x650a7354; 0x766a0abb; 0x81c2c92e; 0x92722c85];
     [0xa2bfe8a1; 0xa81a664b; 0xc24b8b70; 0xc76c51a3];
     [0xd192e819; 0xd6990624; 0xf40e3585; 0x106aa070];
     [0x19a4c116; 0x1e376c08; 0x2748774c; 0x34b0bcb5];
     [0x391c0cb3; 0x4ed8aa4a; 0x5b9cca4f; 0x682e6ff3];
     [0x748f82ee; 0x78a5636f; 0x84c87814; 0x8cc70208];
     [0x90befffa; 0xa4506ceb; 0xbef9a3f7; 0xc67178f2]].

(** The eight working variables / the chaining value. *)
Record state := State { ha : Z; hb : Z; hc : Z; hd : Z; he : Z; hf : Z; hg : Z; hh : Z }.

Definition H0 : state :=
  State 0x6a09e667 0xbb67ae85 0x3c6ef372 0xa54ff53a
        0x510e527f 0x9b05688c 0x1f83d9ab 0x5be0cd19.

Definition byteZ (b : byte) : Z := Z.of_N (Byte.to_N b).
Definition Zbyte (z : Z) : byte := byte_of_N (Z.to_N (Z.land z 0xFF)).

(** Big-endian words of a block. *)
Fixpoint words (b : list Z) : list Z :=
  match b with
  | b0 :: b1 :: b2 :: b3 :: r =>
      (b0 * 16777216 + b1 * 65536 + b2 * 256 + b3) :: words r
  | _ => []
  end.

(** Message schedule: extend the 16 block words by [n] further words. *)
Fixpoint schedule (n : nat) (w : list Z) : list Z :=
  match n with
  | O => w
  | S k =>
      let t := length w in
      let g (i : nat) := nth (t - i) w 0 in
      schedule k (w ++ [add32 (add32 (add32 (sigma1 (g 2%nat)) (g 7%nat))
                                     (sigma0 (g 15%nat))) (g 16%nat)])
  end.

Definition round (s : state) (kw : Z * Z) : state :=
  let t1 := add32 (add32 (add32 (add32 (hh s) (Sigma1 (he s)))
                                (Ch (he s) (hf s) (hg s))) (fst kw)) (snd kw) in
  let t2 := add32 (Sigma0 (ha s)) (Maj (ha s) (hb s) (hc s)) in
  State (add32 t1 t2) (ha s) (hb s) (hc s) (add32 (hd s) t1) (he s) (hf s) (hg s).

Definition compress (h : state) (block : list Z) : state :=
  let w := schedule 48 (words block) in
  let s := fold_left round (combine K w) h in
  State (add32 (ha h) (ha s)) (add32 (hb h) (hb s)) (add32 (hc h) (hc s))
        (add32 (hd h) (hd s)) (add32 (he h) (he s)) (add32 (hf h) (hf s))
        (add32 (hg h) (hg s)) (add32 (hh h) (hh s)).

Definition be_bytes (n : nat) (x : Z) : list Z :=
  map (fun i => Z.land (Z.shiftr x (8 * Z.of_nat i)) 0xFF) (rev (seq 0 n)).

Definition pad (m : list Z) : list Z :=
  let l := Z.of_nat (length m) in
  m ++ [0x80] ++ repeat 0 (Z.to_nat ((55 - l) mod 64)) ++ be_bytes 8 (8 * l).

Fixpoint blocks (n : nat) (h : state) (m : list Z) : state :=
  match n with
  | O => h
  | S k => blocks k (compress h (firstn 64 m)) (skipn 64 m)
  end.

Definition state_bytes (s : state) : list Z :=
  flat_map (be_bytes 4) [ha s; hb s; hc s; hd s; he s; hf s; hg s; hh s].

(** [hashlib.sha256(m).digest()] *)
Definition digest (m : pybytes) : pybytes :=
  let p := pad (map byteZ m) in
  map Zbyte (state_bytes (blocks (length p / 64) H0 p)).

End Sha256.

(** ** [hmac.new(key, msg, hashlib.sha256)] (RFC 2104) *)

Module Hmac.

Definition block_size : nat := 64.

Definition xor_byte (p : N) (b : byte) : byte :=
  byte_of_N (N.lxor (Byte.to_N b) p).

(** Keys longer than a block are hashed; the key is then padded with
    zero bytes to the block size. *)
Definition block_key (key : pybytes) : pybytes :=
  let k := if (block_size <? length key)%nat then Sha256.digest key else key in
  k ++ repeat x00 (block_size - length k).

Definition digest (key msg : pybytes) : pybytes :=
  let k := block_key key in
  Sha256.digest (map (xor_byte 0x5C) k ++ Sha256.digest (map (xor_byte 0x36) k ++ msg)).

Definition hex_digit (n : N) : N :=
  if n <? 10 then 48 + n else 87 + n.

(** The characters [0-9a-f]. *)
Definition lower_hex (c : N) : bool :=
  ((48 <=? c) && (c <=? 57)) || ((97 <=? c) && (c <=? 102)).

(** [bytes.hex()]: two lowercase hexadecimal digits per byte. *)
Definition hex (b : pybytes) : pystr :=
  flat_map (fun x => [hex_digit (Byte.to_N x / 16); hex_digit (Byte.to_N x mod 16)]) b.

(** [hmac.new(key, msg, hashlib.sha256).hexdigest()] *)
Definition hexdigest (key msg : pybytes) : pystr := hex (digest key msg).

End Hmac.

(** ** The signer (src/main.py, [compute_signature]) *)

(** [None] stands for the [UnicodeEncodeError] raised by
    [secret.encode("utf-8")]. *)
Definition compute_signature (secret : pystr) (body : pybytes) : option pystr :=
  match Utf8.encode secret with
  | Some key => Some (lit "sha256=" ++ Hmac.hexdigest key body)
  | None => None
  end.

(** ** [json.dumps] and [json.loads] *)

Module Json.

(** *** Encoder: [json.dumps] on a [dict] whose keys and values are [str] *)

Abbreviation QUOTE := 34 (only parsing).
Abbreviation BACKSLASH := 92 (only parsing).

Definition hex_lower (n : N) : N := if n <? 10 then 48 + n else 87 + n.

(** [\uXXXX] with four lowercase hexadecimal digits. *)
Definition u_escape (c : N) : pystr :=
  [BACKSLASH; 117; hex_lower (c / 4096 mod 16); hex_lower (c / 256 mod 16);
   hex_lower (c / 16 mod 16); hex_lower (c mod 16)].

(** Replacement of one character by [py_encode_basestring]
    ([ensure_ascii=False]): only the quote, the backslash and the control
    characters below U+0020 are escaped. *)
Definition escape_char (c : N) : pystr :=
  if c =? QUOTE then [BACKSLASH; QUOTE]
  else if c =? BACKSLASH then [BACKSLASH; BACKSLASH]
  else if c =? 10 then [BACKSLASH; 110]
  else if c =? 13 then [BACKSLASH; 114]
  else if c =? 9 then [BACKSLASH; 116]
  else if c =? 8 then [BACKSLASH; 98]
  else if c =? 12 then [BACKSLASH; 102]
  else if c <? 32 then u_escape c
  else [c].

(** Replacement of one character by [py_encode_basestring_ascii]
    ([ensure_ascii=True]): everything outside U+0020..U+007E is escaped as
    well, characters above U+FFFF as a surrogate pair. *)
Definition escape_char_ascii (c : N) : pystr :=
  if (c <? 32) || (c =? QUOTE) || (c =? BACKSLASH) then escape_char c
  else if c <? 127 then [c]
  else if c <? 0x10000 then u_escape c
  else u_escape (0xD800 + (c - 0x10000) / 1024 mod 1024)
       ++ u_escape (0xDC00 + (c - 0x10000) mod 1024).

Definition encode_basestring (ensure_ascii : bool) (s : pystr) : pystr :=
  [QUOTE]
  ++ flat_map (if ensure_ascii then escape_char_ascii else escape_char) s
  ++ [QUOTE].

(** Python's [<] on [str]: lexicographic on code points. *)
Fixpoint str_ltb (a b : pystr) : bool :=
  match a, b with
  | _, [] => false
  | [], _ :: _ => true
  | x :: a', y :: b' => (x <? y) || ((x =? y) && str_ltb a' b')
  end.

(** [sorted(d.items())] for a [dict] (unique keys): a stable sort on the
    key. *)
Fixpoint insert_item {A} (kv : pystr * A) (l : list (pystr * A)) : list (pystr * A) :=
  match l with
  | [] => [kv]
  | x :: r => if str_ltb (fst kv) (fst x) then kv :: l else x :: insert_item kv r
  end.

Definition sorted_items {A} (d : list (pystr * A)) : list (pystr * A) :=
  fold_right insert_item [] d.

Fixpoint join (sep : pystr) (parts : list pystr) : pystr :=
  match parts with
  | [] => []
  | [p] => p
  | p :: r => p ++ sep ++ join sep r
  end.

(** [json.dumps(d, separators=(item_sep, key_sep), sort_keys=..,
    ensure_ascii=..)] for [d : dict[str, str]], held as its items in
    insertion order. *)
Definition dumps (item_sep key_sep : pystr) (sort_keys ensure_ascii : bool)
           (d : list (pystr * pystr)) : pystr :=
  let items := if sort_keys then sorted_items d else d in
  [123]
  ++ join item_sep
       (map (fun kv => encode_basestring ensure_ascii (fst kv) ++ key_sep
                       ++ encode_basestring ensure_ascii (snd kv)) items)
  ++ [125].

(** *** Decoder: [json.loads] on a [str] *)

(** The Python value [json.loads] returns.  A [float] is kept as the text
    it was read from (its binary value is not modelled); a [dict] is the
    list of its items, keys unique, in insertion order. *)
#[warnings="-register-all"]
Inductive value : Type :=
| Null
| Bool (b : bool)
| Int (z : Z)
| Float (text : pystr)
| Str (s : pystr)
| List (l : list value)
| Dict (items : list (pystr * value)).

(** [d[k] = v] *)
Fixpoint dict_set {A} (d : list (pystr * A)) (k : pystr) (v : A) : list (pystr * A) :=
  match d with
  | [] => [(k, v)]
  | (k', v') :: r =>
      if decide (k' = k) then (k', v) :: r else (k', v') :: dict_set r k v
  end.

(** [d.get(k)] *)
Fixpoint dict_get {A} (d : list (pystr * A)) (k : pystr) : option A :=
  match d with
  | [] => None
  | (k', v) :: r => if decide (k' = k) then Some v else dict_get r k
  end.

(** [dict(pairs)]: a later pair with the same key replaces the value. *)
Definition dict_of_pairs {A} (pairs : list (pystr * A)) : list (pystr * A) :=
  fold_left (fun d kv => dict_set d (fst kv) (snd kv)) pairs [].

(** Outcome of a scanning function: a value and the unread input,
    [JSONDecodeError], another exception ([ValueError] from the digits
    limit, [RecursionError]), or the budget of the definition exhausted. *)
Inductive result (A : Type) : Type :=
| Ok (a : A) (rest : pystr)
| Err
| Stop (e : exn)
| OutOfFuel.
Arguments Ok {A} a rest.
Arguments Err {A}.
Arguments Stop {A} e.
Arguments OutOfFuel {A}.

Definition is_ws (c : N) : bool :=
  (c =? 32) || (c =? 9) || (c =? 10) || (c =? 13).

Fixpoint skip_ws (s : pystr) : pystr :=
  match s with
  | c :: r => if is_ws c then skip_ws r else s
  | [] => []
  end.

Definition is_digit (c : N) : bool := (48 <=? c) && (c <=? 57).

Definition hexval (c : N) : option N :=
  if is_digit c then Some (c - 48)
  else if (97 <=? c) && (c <=? 102) then Some (c - 87)
  else if (65 <=? c) && (c <=? 70) then Some (c - 55)
  else None.

Definition hex4 (a b c d : N) : option N :=
  match hexval a, hexval b, hexval c, hexval d with
  | Some x, Some y, Some z, Some t => Some (x * 4096 + y * 256 + z * 16 + t)
  | _, _, _, _ => None
  end.

(** The character a one-letter escape stands for. *)
Definition unescape (e : N) : option N :=
  if e =? QUOTE then Some QUOTE
  else if e =? BACKSLASH then Some BACKSLASH
  else if e =? 47 then Some 47
  else if e =? 98 then Some 8
  else if e =? 102 then Some 12
  else if e =? 110 then Some 10
  else if e =? 114 then Some 13
  else if e =? 116 then Some 9
  else None.

Definition push (c : N) (r : option (pystr * pystr)) : option (pystr * pystr) :=
  match r with
  | Some (s, rest) => Some (c :: s, rest)
  | None => None
  end.

(** [scanstring(s, end, strict=True)], entered after the opening quote:
    the decoded string and the input after the closing quote. *)
Fixpoint scanstring (s : pystr) : option (pystr * pystr) :=
  match s with
  | [] => None
  | c :: r =>
      if c =? QUOTE then Some ([], r)
      else if c <? 32 then None
      else if negb (c =? BACKSLASH) then push c (scanstring r)
      else
        match r with
        | [] => None
        | e :: r1 =>
            if negb (e =? 117) then
              match unescape e with
              | Some x => push x (scanstring r1)
              | None => None
              end
            else
              match r1 with
              | h1 :: h2 :: h3 :: h4 :: r2 =>
                  match hex4 h1 h2 h3 h4 with
                  | None => None
                  | Some u =>
                      if (0xD800 <=? u) && (u <=? 0xDBFF) then
                        match r2 with
                        | b :: u' :: l1 :: l2 :: l3 :: l4 :: r3 =>
                            if (b =? BACKSLASH) && (u' =? 117) then
                              match hex4 l1 l2 l3 l4 with
                              | None => None
                              | Some u2 =>
                                  if (0xDC00 <=? u2) && (u2 <=? 0xDFFF)
                                  then push (0x10000 + (u - 0xD800) * 1024 + (u2 - 0xDC00))
                                            (scanstring r3)
                                  else push u (scanstring r2)
                              end
                            else push u (scanstring r2)
                        | _ => push u (scanstring r2)
                        end
                      else push u (scanstring r2)
                  end
              | _ => None
              end
        end
  end.

(** Longest prefix of decimal digits. *)
Fixpoint span_digits (s : pystr) : pystr * pystr :=
  match s with
  | c :: r =>
      if is_digit c then let (d, r') := span_digits r in (c :: d, r') else ([], s)
  | [] => ([], [])
  end.

Definition digits_value (d : pystr) : Z :=
  fold_left (fun acc c => (10 * acc + Z.of_N (c - 48))%Z) d 0%Z.

(** [NUMBER_RE]: an optional minus sign and either a single zero or a
    non-zero digit followed by digits (the integer); optionally a dot and
    one or more digits (the fraction); optionally [e] or [E], an optional
    sign and one or more digits (the exponent). *)
Definition match_integer (s : pystr) : option (pystr * pystr) :=
  let (sign, s1) := match s with
                    | c :: r => if c =? 45 then ([45], r) else ([], s)
                    | [] => ([], s)
                    end in
  match s1 with
  | c :: r =>
      if c =? 48 then Some (sign ++ [c], r)
      else if is_digit c then let (d, r') := span_digits r in Some (sign ++ c :: d, r')
      else None
  | [] => None
  end.

Definition match_frac (s : pystr) : pystr * pystr :=
  match s with
  | c :: r =>
      if c =? 46 then
        match span_digits r with
        | ([], _) => ([], s)
        | (d, r') => (c :: d, r')
        end
      else ([], s)
  | [] => ([], s)
  end.

Definition match_exp (s : pystr) : pystr * pystr :=
  match s with
  | c :: r =>
      if (c =? 101) || (c =? 69) then
        let (sign, r1) := match r with
                          | x :: r' => if (x =? 45) || (x =? 43) then ([x], r') else ([], r)
                          | [] => ([], r)
                          end in
        match span_digits r1 with
        | ([], _) => ([], s)
        | (d, r') => (c :: sign ++ d, r')
        end
      else ([], s)
  | [] => ([], s)
  end.

Definition int_value (text : pystr) : Z :=
  match text with
  | c :: d => if c =? 45 then (- digits_value d)%Z else digits_value text
  | [] => 0%Z
  end.

(** The digits of the text of an integer, without its sign. *)
Definition int_digits (text : pystr) : pystr :=
  match text with
  | c :: d => if c =? 45 then d else text
  | [] => []
  end.

(** A number at the head of [s]: [Err] when there is none.  An integer is
    converted by [int], which raises [ValueError] above the digits limit; a
    number with a fraction or an exponent by [float], which does not. *)
Definition scan_number (lim : limits) (s : pystr) : result value :=
  match match_integer s with
  | None => Err
  | Some (i, r) =>
      let (f, r1) := match_frac r in
      let (e, r2) := match_exp r1 in
      match f, e with
      | [], [] =>
          if digits_exceed lim (length (int_digits i))
          then Stop ValueError
          else Ok (Int (int_value i)) r2
      | _, _ => Ok (Float (i ++ f ++ e)) r2
      end
  end.

(** [s[idx:idx+len(w)] == w], giving the input after [w]. *)
Fixpoint strip_prefix (w s : pystr) : option pystr :=
  match w, s with
  | [], _ => Some s
  | x :: w', y :: s' => if x =? y then strip_prefix w' s' else None
  | _ :: _, [] => None
  end.

Definition scan_constant (lim : limits) (s : pystr) : result value :=
  match strip_prefix (lit "null") s with
  | Some r => Ok Null r
  | None =>
  match strip_prefix (lit "true") s with
  | Some r => Ok (Bool true) r
  | None =>
  match strip_prefix (lit "false") s with
  | Some r => Ok (Bool false) r
  | None =>
  match scan_number lim s with
  | Ok v r => Ok v r
  | Stop e => Stop e
  | OutOfFuel => OutOfFuel
  | Err =>
  match strip_prefix (lit "NaN") s with
  | Some r => Ok (Float (lit "NaN")) r
  | None =>
  match strip_prefix (lit "Infinity") s with
  | Some r => Ok (Float (lit "Infinity")) r
  | None =>
  match strip_prefix (lit "-Infinity") s with
  | Some r => Ok (Float (lit "-Infinity")) r
  | None => Err
  end end end end end end end.

(** [scan_once], [JSONObject] and [JSONArray].  [parse_members] and
    [parse_elements] are the [while True] loops of the latter two;
    [parse_members] is entered after the opening quote of a key.  Entering
    an object or an array is a nested call of the interpreter: it raises
    [RecursionError] when [depth], the calls still allowed, is used up.
    [fuel] bounds the calls of this definition. *)
Fixpoint scan_once (lim : limits) (fuel depth : nat) (s : pystr) : result value :=
  match fuel with
  | O => OutOfFuel
  | S f =>
      match s with
      | [] => Err
      | c :: r =>
          if c =? QUOTE then
            match scanstring r with
            | Some (str, r') => Ok (Str str) r'
            | None => Err
            end
          else if c =? 123 then
            match depth with
            | O => Stop RecursionError
            | S d =>
                match skip_ws r with
                | c1 :: r1 =>
                    if c1 =? 125 then Ok (Dict []) r1
                    else if c1 =? QUOTE then parse_members lim f d [] r1
                    else Err
                | [] => Err
                end
            end
          else if c =? 91 then
            match depth with
            | O => Stop RecursionError
            | S d =>
                match skip_ws r with
                | c1 :: r1 =>
                    if c1 =? 93 then Ok (List []) r1
                    else parse_elements lim f d [] (c1 :: r1)
                | [] => Err
                end
            end
          else scan_constant lim s
      end
  end
with parse_members (lim : limits) (fuel depth : nat) (acc : list (pystr * value))
       (s : pystr) : result value :=
  match fuel with
  | O => OutOfFuel
  | S f =>
      match scanstring s with
      | None => Err
      | Some (key, r) =>
          match skip_ws r with
          | c :: r1 =>
              if negb (c =? 58) then Err
              else
                match scan_once lim f depth (skip_ws r1) with
                | Err => Err
                | Stop e => Stop e
                | OutOfFuel => OutOfFuel
                | Ok v r2 =>
                    let acc' := acc ++ [(key, v)] in
                    match skip_ws r2 with
                    | c2 :: r3 =>
                        if c2 =? 125 then Ok (Dict (dict_of_pairs acc')) r3
                        else if negb (c2 =? 44) then Err
                        else
                          match skip_ws r3 with
                          | c3 :: r4 =>
                              if c3 =? QUOTE then parse_members lim f depth acc' r4
                              else Err
                          | [] => Err
                          end
                    | [] => Err
                    end
                end
          | [] => Err
          end
      end
  end
with parse_elements (lim : limits) (fuel depth : nat) (acc : list value) (s : pystr)
     : result value :=
  match fuel with
  | O => OutOfFuel
  | S f =>
      match scan_once lim f depth s with
      | Err => Err
      | Stop e => Stop e
      | OutOfFuel => OutOfFuel
      | Ok v r =>
          let acc' := acc ++ [v] in
          match skip_ws r with
          | c :: r1 =>
              if c =? 93 then Ok (List acc') r1
              else if negb (c =? 44) then Err
              else parse_elements lim f depth acc' (skip_ws r1)
          | [] => Err
          end
      end
  end.

(** [JSONDecoder.decode]: one value between optional white space, then the
    end of the input ("Extra data" otherwise). *)
Definition decode (lim : limits) (fuel : nat) (s : pystr) : result value :=
  match scan_once lim fuel (recursion_depth lim) (skip_ws s) with
  | Ok v r =>
      match skip_ws r with
      | [] => Ok v []
      | _ :: _ => Err
      end
  | Err => Err
  | Stop e => Stop e
  | OutOfFuel => OutOfFuel
  end.

(** What a call returns or raises. *)
Inductive answer : Type :=
| Returns (v : value)
| Raises (e : exn).

(** [json.loads(s)] for [s : str].  A nested call of the definition costs
    at most two units of [fuel] for each character it leaves behind, so
    [1 + 2 * len(s)] is never exhausted (see [loads_fuel]) and the last
    case does not arise. *)
Definition loads (lim : limits) (s : pystr) : answer :=
  match decode lim (1 + 2 * length s) s with
  | Ok v _ => Returns v
  | Err => Raises JSONDecodeError
  | Stop e => Raises e
  | OutOfFuel => Raises RecursionError
  end.

End Json.

(** ** [str.replace], decimal formatting and [datetime.isoformat] *)

Module Text.

(** [str.replace(old, new)]: every non-overlapping occurrence, from the
    left.  [skip] counts the characters of a match still to be dropped. *)
Fixpoint replace_from (old new : pystr) (skip : nat) (s : pystr) : pystr :=
  match s with
  | [] => []
  | c :: r =>
      match skip with
      | S k => replace_from old new k r
      | O =>
          match Json.strip_prefix old s with
          | Some _ => new ++ replace_from old new (length old - 1) r
          | None => c :: replace_from old new 0 r
          end
      end
  end.

Definition replace (old new s : pystr) : pystr :=
  match old with
  | [] => new ++ flat_map (fun c => c :: new) s
  | _ :: _ => replace_from old new 0 s
  end.

(** No plus sign occurs in [s]. *)
Definition no_plus (s : pystr) : Prop := Forall (fun c => c <> 43) s.

(** The [w] low decimal digits of [n], most significant first. *)
Fixpoint fixed (w : nat) (n : N) : pystr :=
  match w with
  | O => []
  | S k => fixed k (n / 10) ++ [48 + n mod 10]
  end.

Fixpoint strip_zeros (d : pystr) : pystr :=
  match d with
  | c :: (_ :: _) as r => if c =? 48 then strip_zeros r else d
  | _ => d
  end.

(** [str(n)] for a non-negative [int]: a number has no more decimal
    digits than binary ones. *)
Definition dec (n : N) : pystr :=
  strip_zeros (fixed (S (N.to_nat (N.log2 n))) n).

(** [str(z)] for an [int]. *)
Definition dec_Z (z : Z) : pystr :=
  if (z <? 0)%Z then 45 :: dec (Z.to_N (- z)) else dec (Z.to_N z).

(** ["%0wd" % n] *)
Definition zero_pad (w : nat) (n : N) : pystr :=
  if n <? 10 ^ N.of_nat w then fixed w n else dec n.

End Text.

(** An aware [datetime] in UTC. *)
Record datetime : Type := Datetime {
  year : N; month : N; day : N;
  hour : N; minute : N; second : N; microsecond : N
}.

(** The ranges the [datetime] constructor enforces. *)
Definition valid_datetime (d : datetime) : Prop :=
  1 <= year d <= 9999 /\ 1 <= month d <= 12 /\ 1 <= day d <= 31 /\
  hour d < 24 /\ minute d < 60 /\ second d < 60 /\ microsecond d < 1000000.

(** [d.replace(microsecond=us)] *)
Definition replace_microsecond (d : datetime) (us : N) : datetime :=
  Datetime (year d) (month d) (day d) (hour d) (minute d) (second d) us.

(** The date and time of day, to the second: [YYYY-MM-DDTHH:MM:SS]. *)
Definition iso_seconds (d : datetime) : pystr :=
  Text.zero_pad 4 (year d) ++ lit "-" ++ Text.zero_pad 2 (month d) ++ lit "-"
  ++ Text.zero_pad 2 (day d) ++ lit "T" ++ Text.zero_pad 2 (hour d) ++ lit ":"
  ++ Text.zero_pad 2 (minute d) ++ lit ":" ++ Text.zero_pad 2 (second d).

(** [d.isoformat()] with [tzinfo=timezone.utc]: [timespec='auto'] prints the
    six-digit fraction only when [microsecond] is not zero; the offset of UTC
    prints as [+00:00]. *)
Definition isoformat (d : datetime) : pystr :=
  iso_seconds d
  ++ (if microsecond d =? 0 then [] else lit "." ++ Text.zero_pad 6 (microsecond d))
  ++ lit "+00:00".

(** ** The process and its world *)

Record Request : Type := mkRequest {
  url : pystr;
  data : pybytes;
  method : pystr;
  headers : list (pystr * pystr)
}.

(** What [urllib.request.urlopen] does with a request: it returns a response
    whose [read()] gives [body], or raises [HTTPError] ([code] and [reason]
    are the three-digit status and the reason phrase of the response
    [urllib] gave up on; [body] is [None] when the error carries nothing to
    read), or raises [URLError].  Which responses [urllib] follows as redirects instead of
    raising is its own business and not modelled. *)
Inductive reply : Type :=
| Response (body : pybytes)
| HTTPFailure (code : N) (reason : pystr) (body : option pybytes)
| URLFailure (reason : pystr).

Record World : Type := mkWorld {
  environ : gmap string pystr;      (* os.environ *)
  utcnow : datetime;                (* datetime.now(timezone.utc) *)
  network : Request -> reply;       (* the remote end, through urllib *)
  interpreter : limits;             (* the limits of the interpreter *)
  stdout_errors : error_handler     (* sys.stdout.errors *)
}.

(** What the process has written and sent so far.  An entry of [stdout] or
    [stderr] is the string of one [print]; the stream receives it followed by
    a line feed (see [written]). *)
Record io : Type := mkIo {
  stdout : list pystr;     (* one entry per [print(..)] *)
  stderr : list pystr;     (* one entry per [print(.., file=sys.stderr)] *)
  sent : list Request      (* one entry per [urlopen(..)] *)
}.

(** The text a stream has received. *)
Definition written (entries : list pystr) : pystr :=
  flat_map (fun line => line ++ [10]) entries.

Inductive flow (A : Type) : Type :=
| Ret (a : A)
| Exit (code : Z)          (* sys.exit(code) *)
| Raise (e : exn).
Arguments Ret {A} a.
Arguments Exit {A} code.
Arguments Raise {A} e.

Definition proc (A : Type) : Type := io -> io * flow A.

#[local] Instance proc_ret : MRet proc := fun A a s => (s, Ret a).

#[local] Instance proc_bind : MBind proc := fun A B f m s =>
  match m s with
  | (s', Ret a) => f a s'
  | (s', Exit c) => (s', Exit c)
  | (s', Raise e) => (s', Raise e)
  end.

Definition raise {A} (e : exn) : proc A := fun s => (s, Raise e).

Definition sys_exit {A} (code : Z) : proc A := fun s => (s, Exit code).

(** The characters [sys.stdout] can encode: UTF-8 takes every code point
    but the surrogates, and [surrogateescape] turns those of U+DC80..U+DCFF
    back into bytes. *)
Definition stdout_accepts (h : error_handler) (c : N) : bool :=
  Utf8.scalar c
  || match h with
     | Strict => false
     | SurrogateEscape => (0xDC80 <=? c) && (c <=? 0xDCFF)
     end.

(** [print(line)]: the stream encodes the string before it writes
    anything, and raises [UnicodeEncodeError] on a character it cannot
    encode. *)
Definition print (h : error_handler) (line : pystr) : proc unit := fun s =>
  if forallb (stdout_accepts h) line
  then (mkIo (stdout s ++ [line]) (stderr s) (sent s), Ret tt)
  else (s, Raise UnicodeEncodeError).

(** [print(line, file=sys.stderr)]: the error handler of [sys.stderr] is
    [backslashreplace], which encodes every string. *)
Definition print_err (line : pystr) : proc unit := fun s =>
  (mkIo (stdout s) (stderr s ++ [line]) (sent s), Ret tt).

(** [try: body except ..: handler]; [handler e = None] when no clause
    matches [e]. *)
Definition try_except {A} (body : proc A) (handler : exn -> option (proc A)) : proc A :=
  fun s =>
    match body s with
    | (s', Raise e) =>
        match handler e with
        | Some h => h s'
        | None => (s', Raise e)
        end
    | r => r
    end.

Definition str_encode (s : pystr) : proc pybytes :=
  match Utf8.encode s with
  | Some b => mret b
  | None => raise UnicodeEncodeError
  end.

Definition bytes_decode (b : pybytes) : proc pystr :=
  match Utf8.decode b with
  | Some s => mret s
  | None => raise UnicodeDecodeError
  end.

Definition json_loads (lim : limits) (s : pystr) : proc Json.value :=
  match Json.loads lim s with
  | Json.Returns v => mret v
  | Json.Raises e => raise e
  end.


(** [str(KeyError(key))] is [repr(key)]: the key between single quotes. *)
Definition str_KeyError (key : pystr) : pystr := [39] ++ key ++ [39].

(** [e.read()] on an [HTTPError]. *)
Definition error_read (body : option pybytes) : proc pybytes :=
  match body with
  | Some b => mret b
  | None => raise AttributeError
  end.

(** [obj.get(key)]: only a [dict] has the method. *)
Definition py_get (obj : Json.value) (key : pystr) : proc (option Json.value) :=
  match obj with
  | Json.Dict d => mret (Json.dict_get d key)
  | _ => raise AttributeError
  end.

(** [x is True] *)
Definition is_True (x : option Json.value) : bool :=
  match x with
  | Some (Json.Bool true) => true
  | _ => false
  end.

(** [key in obj] for a [dict]. *)
Definition py_in (key : pystr) (obj : Json.value) : bool :=
  match obj with
  | Json.Dict d =>
      match Json.dict_get d key with
      | Some _ => true
      | None => false
      end
  | _ => false
  end.

(** [obj[key]] *)
Definition py_getitem (obj : Json.value) (key : pystr) : proc Json.value :=
  match obj with
  | Json.Dict d =>
      match Json.dict_get d key with
      | Some v => mret v
      | None => raise (KeyError key)
      end
  | _ => raise AttributeError
  end.

Section Program.

(** [repr] of a [float], a [list] or a [dict], which [str()] falls back on;
    it is not modelled. *)
Variable py_repr : Json.value -> pystr.

Variable w : World.

(** [f"{v}"].  An [int] that [json.loads] returned has passed the digits
    limit, so [str] converts it. *)
Definition format_value (v : Json.value) : pystr :=
  match v with
  | Json.Str s => s
  | Json.Null => lit "None"
  | Json.Bool true => lit "True"
  | Json.Bool false => lit "False"
  | Json.Int z => Text.dec_Z z
  | _ => py_repr v
  end.

Definition os_environ_get (name : string) (default : pystr) : pystr :=
  match environ w !! name with
  | Some v => v
  | None => default
  end.

Definition os_environ_getitem (name : string) : proc pystr :=
  match environ w !! name with
  | Some v => mret v
  | None => raise (KeyError (lit name))
  end.

Definition urlopen (req : Request) : proc pybytes := fun s =>
  (mkIo (stdout s) (stderr s) (sent s ++ [req]),
   match network w req with
   | Response body => Ret body
   | HTTPFailure code reason body => Raise (HTTPError code reason body)
   | URLFailure reason => Raise (URLError reason)
   end).

(** src/main.py, lines 12-15 *)
Definition iso8601_timestamp : pystr :=
  let now := utcnow w in
  Text.replace (lit "+00:00") (lit "Z")
    (isoformat (replace_microsecond now (microsecond now / 1000 * 1000))).

(** The [dict] display of [build_payload], in insertion order. *)
Definition payload_dict (timestamp name email resume_link repository_link
                         action_run_link : pystr) : list (pystr * pystr) :=
  [(lit "timestamp", timestamp);
   (lit "name", name);
   (lit "email", email);
   (lit "resume_link", resume_link);
   (lit "repository_link", repository_link);
   (lit "action_run_link", action_run_link)].

(** src/main.py, lines 18-26 *)
Definition build_payload : proc (list (pystr * pystr)) :=
  let timestamp := iso8601_timestamp in
  let name := os_environ_get "B12_NAME" (lit "Donovan Piper") in
  let email := os_environ_get "B12_EMAIL" (lit "do.piper.eng@outlook.com") in
  let resume_link :=
    os_environ_get "B12_RESUME_LINK" (lit "https://donovan-piper.netlify.app/") in
  let repository_link :=
    os_environ_get "B12_REPOSITORY_LINK" (lit "https://github.com/novancore") in
  action_run_link ← os_environ_getitem "B12_ACTION_RUN_LINK";
  mret (payload_dict timestamp name email resume_link repository_link action_run_link).

(** src/main.py, lines 46-48: compact, sorted, UTF-8 JSON. *)
Definition serialize (payload : list (pystr * pystr)) : pystr :=
  Json.dumps (lit ",") (lit ":") true false payload.

(** src/main.py, lines 52-60 *)
Definition make_request (body_bytes : pybytes) (signature : pystr) : Request :=
  {| url := lit "https://b12.io/apply/submission";
     data := body_bytes;
     method := lit "POST";
     headers := [(lit "Content-Type", lit "application/json; charset=utf-8");
                 (lit "X-Signature-256", signature)] |}.

(** src/main.py, lines 34-91 *)
Definition main : proc unit :=
  match environ w !! "B12_SIGNING_SECRET" with
  | None | Some [] =>
      print_err (lit "Missing B12_SIGNING_SECRET");;
      sys_exit 1
  | Some secret =>
      payload ← try_except build_payload
        (fun e => match e with
                  | KeyError key => Some (
                      print_err (lit "Missing required environment variable: "
                                 ++ str_KeyError key);;
                      sys_exit 1)
                  | _ => None
                  end);
      let body_str := serialize payload in
      body_bytes ← str_encode body_str;
      signature ← match compute_signature secret body_bytes with
                  | Some sig => mret sig
                  | None => raise UnicodeEncodeError
                  end;
      let req := make_request body_bytes signature in
      resp_body ← try_except (resp ← urlopen req; bytes_decode resp)
        (fun e => match e with
                  | HTTPError code reason body => Some (
                      print_err (lit "HTTP error: " ++ Text.dec code ++ lit " " ++ reason);;
                      try_except (raw ← error_read body;
                                  text ← bytes_decode raw;
                                  print_err text)
                                 (fun _ => Some (mret tt));;
                      sys_exit 1)
                  | URLError reason => Some (
                      print_err (lit "Request failed: <urlopen error " ++ reason ++ lit ">");;
                      sys_exit 1)
                  | _ => None
                  end);
      parsed ← try_except (json_loads (interpreter w) resp_body)
        (fun e => match e with
                  | JSONDecodeError => Some (
                      print_err (lit "Invalid JSON response from server");;
                      print_err resp_body;;
                      sys_exit 1)
                  | _ => None
                  end);
      success ← py_get parsed (lit "success");
      if is_True success && py_in (lit "receipt") parsed then
        receipt ← py_getitem parsed (lit "receipt");
        print (stdout_errors w) (lit "Submission receipt: " ++ format_value receipt);;
        sys_exit 0
      else
        print_err (lit "Submission failed or unexpected response");;
        print_err resp_body;;
        sys_exit 1
  end.

(** Running the script from a fresh process. *)
Definition run_main : io * flow unit := main (mkIo [] [] []).

End Program.

(** The [dict] that [build_payload] returns when [B12_ACTION_RUN_LINK] is
    set to [link]. *)
Definition payload_of (w : World) (link : pystr) : list (pystr * pystr) :=
  payload_dict (iso8601_timestamp w)
    (os_environ_get w "B12_NAME" (lit "Donovan Piper"))
    (os_environ_get w "B12_EMAIL" (lit "do.piper.eng@outlook.com"))
    (os_environ_get w "B12_RESUME_LINK" (lit "https://donovan-piper.netlify.app/"))
    (os_environ_get w "B12_REPOSITORY_LINK" (lit "https://github.com/novancore"))
    link.

(** The run reaches the transport step ([urlopen], line 63) with the signing
    secret [secret], the request body [body] and the signature [sig]: the
    secret is set and not empty, [B12_ACTION_RUN_LINK] is set, and neither
    [str.encode] call raises. *)
Definition reaches_transport (w : World) (secret : pystr) (body : pybytes)
           (sig : pystr) : Prop :=
  environ w !! "B12_SIGNING_SECRET" = Some secret /\
  secret <> [] /\
  (exists link,
      environ w !! "B12_ACTION_RUN_LINK" = Some link /\
      Utf8.encode (serialize (payload_of w link)) = Some body) /\
  compute_signature secret body = Some sig.

(** The text [{"success": true, "receipt": "ABC123"}] and the like: [jq s]
    is [s] between double quotes. *)
Definition jq (s : string) : pystr := [34] ++ lit s ++ [34].

Definition receipt_response : pystr :=
  lit "{" ++ jq "success" ++ lit ": true, " ++ jq "receipt" ++ lit ": " ++ jq "ABC123"
  ++ lit "}".

Definition failure_response : pystr := lit "{" ++ jq "success" ++ lit ": false}".

(** The text [{"success": true, "receipt": "\ud800"}]: the receipt is the
    JSON escape of a lone surrogate. *)
Definition surrogate_receipt_response : pystr :=
  lit "{" ++ jq "success" ++ lit ": true, " ++ jq "receipt" ++ lit ": "
  ++ jq "\ud800" ++ lit "}".

(** CPython's defaults: 4300 digits, and room for 995 nested arrays or
    objects in a script of this shape. *)
Definition default_limits : limits := mkLimits 4300 995.

(** A world for running the script: every optional variable unset, the
    clock at 2024-02-29T23:59:58.123999Z, a remote end that answers
    every request with [reply], and an interpreter with the default limits
    on a UTF-8 locale. *)
Definition sample_world (secret link : option pystr) (answer : reply) : World :=
  mkWorld
    (match secret, link with
     | Some s, Some l => <["B12_SIGNING_SECRET" := s]> (<["B12_ACTION_RUN_LINK" := l]> ∅)
     | Some s, None => <["B12_SIGNING_SECRET" := s]> ∅
     | None, Some l => <["B12_ACTION_RUN_LINK" := l]> ∅
     | None, None => ∅
     end)
    (Datetime 2024 2 29 23 59 58 123999)
    (fun _ => answer)
    default_limits
    Strict.

(** A world whose clock shows [now]. *)
Definition world_at (now : datetime) : World :=
  mkWorld ∅ now (fun _ => URLFailure []) default_limits Strict.

(** [s.encode("utf-8")] of a string known to be encodable. *)
Definition utf8 (s : pystr) : pybytes :=
  match Utf8.encode s with
  | Some b => b
  | None => []
  end.

(** The exit status of the process: an uncaught exception ends it with
    status 1, like [sys.exit(1)]. *)
Definition exit_status (f : flow unit) : Z :=
  match f with
  | Ret _ => 0
  | Exit code => code
  | Raise _ => 1
  end.

(** A signing secret, a run link, and the request the script sends for
    them in [sample_world]. *)
Definition sample_secret : pystr := lit "s3cret".

Definition sample_link : pystr :=
  lit "https://github.com/novancore/b12-submission/actions/runs/1".

Definition sample_body : pybytes :=
  utf8 (serialize (payload_of (sample_world (Some sample_secret) (Some sample_link)
                                            (URLFailure []))
                              sample_link)).

Definition sample_signature : pystr :=
  match compute_signature sample_secret sample_body with
  | Some sig => sig
  | None => []
  end.

Definition sample_request : Request := make_request sample_body sample_signature.

(** A world whose secret and run link are the samples. *)
Definition sample_run (answer : reply) : World :=
  sample_world (Some sample_secret) (Some sample_link) answer.

(** * Facts about the library models *)

(** Division and remainder by constants, for [lia]. *)
Ltac Zify.zify_post_hook ::= Z.to_euclidean_division_equations.

(** ** Test vectors (FIPS 180-4, RFC 4231) *)

Example sha256_abc :
  Hmac.hex (Sha256.digest (lit_bytes "abc"))
  = lit "ba7816bf8f01cfea414140de5dae2223b00361a396177a9cb410ff61f20015ad".
Proof. vm_compute. reflexivity. Qed.

Example sha256_empty :
  Hmac.hex (Sha256.digest [])
  = lit "e3b0c44298fc1c149afbf4c8996fb92427ae41e4649b934ca495991b7852b855".
Proof. vm_compute. reflexivity. Qed.

Example sha256_two_blocks :
  Hmac.hex (Sha256.digest
              (lit_bytes "abcdbcdecdefdefgefghfghighijhijkijkljklmklmnlmnomnopnopq"))
  = lit "248d6a61d20638b8e5c026930c3e6039a33ce45964ff2167f6ecedd419db06c1".
Proof. vm_compute. reflexivity. Qed.

(** RFC 4231, test case 2. *)
Example hmac_rfc4231_2 :
  compute_signature (lit "Jefe") (lit_bytes "what do ya want for nothing?")
  = Some (lit "sha256=5bdcc146bf60754e6a042426089575c75a003f089d2739839dec58b964ec3843").
Proof. vm_compute. reflexivity. Qed.

Lemma split64 (c : N) :
  exists q m, c / 64 = q /\ c mod 64 = m /\ c = 64 * q + m /\ m < 64.
Proof. exists (c / 64), (c mod 64). repeat split; lia. Qed.

Lemma div_4096 (c : N) : c / 4096 = c / 64 / 64.
Proof. now rewrite N.Div0.div_div. Qed.

Lemma div_262144 (c : N) : c / 262144 = c / 64 / 64 / 64.
Proof. now rewrite !N.Div0.div_div. Qed.

Lemma byte_of_N_to_N (n : N) : n < 256 -> Byte.to_N (byte_of_N n) = n.
Proof.
  intros Hn. unfold byte_of_N.
  destruct (Byte.of_N n) as [b|] eqn:E.
  - now apply Byte.to_of_N.
  - apply Byte.of_N_None_iff in E. lia.
Qed.

Module Utf8Facts.
Import Utf8.

Ltac bool_cases :=
  repeat match goal with
    | H : (_ && _) = true |- _ => apply andb_true_iff in H; destruct H
    | H : (_ && _) = false |- _ => apply andb_false_iff in H
    | H : negb _ = true |- _ => apply negb_true_iff in H
    | H : (_ <? _) = true |- _ => apply N.ltb_lt in H
    | H : (_ <? _) = false |- _ => apply N.ltb_ge in H
    | H : (_ <=? _) = true |- _ => apply N.leb_le in H
    | H : (_ <=? _) = false |- _ => apply N.leb_gt in H
    | H : (_ =? _) = true |- _ => apply N.eqb_eq in H
    | H : (_ =? _) = false |- _ => apply N.eqb_neq in H
    end.

Lemma scalar_spec (c : N) :
  scalar c = true <-> c < 0x110000 /\ ~ (0xD800 <= c <= 0xDFFF).
Proof.
  unfold scalar, is_surrogate. split.
  - intros H. bool_cases. destruct H0; bool_cases; lia.
  - intros [H1 H2]. apply andb_true_iff. split; [now apply N.ltb_lt|].
    apply negb_true_iff, andb_false_iff.
    destruct (N.leb_spec 0xD800 c); [right; apply N.leb_gt; lia | now left].
Qed.

(** Settle every comparison that linear arithmetic decides. *)
Ltac settle :=
  repeat match goal with
    | |- context [?a <? ?b] =>
        first [ replace (a <? b) with true by (symmetry; apply N.ltb_lt; lia)
              | replace (a <? b) with false by (symmetry; apply N.ltb_ge; lia) ]
    | |- context [?a <=? ?b] =>
        first [ replace (a <=? b) with true by (symmetry; apply N.leb_le; lia)
              | replace (a <=? b) with false by (symmetry; apply N.leb_gt; lia) ]
    | |- context [?a =? ?b] =>
        first [ replace (a =? b) with true by (symmetry; apply N.eqb_eq; lia)
              | replace (a =? b) with false by (symmetry; apply N.eqb_neq; lia) ]
    end.

(** The decoder reads back what the encoder wrote for one character. *)
Lemma decode_encode_char (c : N) (rest : pybytes) :
  scalar c = true ->
  exists b, encode_char c = Some b /\
            decode (b ++ rest) = option_map (cons c) (decode rest).
Proof.
  intros Hc. apply scalar_spec in Hc. destruct Hc as [Hlt Hns].
  unfold encode_char, is_surrogate. rewrite div_262144, !div_4096.
  destruct (split64 c) as (q0 & m0 & -> & -> & Hc & Hm0).
  destruct (split64 q0) as (q1 & m1 & -> & -> & Hq0 & Hm1).
  destruct (split64 q1) as (q2 & m2 & -> & -> & Hq1 & Hm2).
  destruct (N.ltb_spec c 0x80) as [H1|H1];
    [|destruct (N.ltb_spec c 0x800) as [H2|H2];
      [|destruct (N.ltb_spec c 0x10000) as [H3|H3]]].
  all: settle; cbn [andb].
  all: repeat match goal with
         | |- context [?a <=? ?b] => destruct (N.leb_spec a b); try lia
         end; cbn [andb].
  all: eexists; (split; [reflexivity|]); cbn [app decode].
  all: repeat (rewrite byte_of_N_to_N by lia).
  all: unfold between, cont; settle; cbn [andb].
  all: repeat match goal with
         | |- context [?a =? ?b] => destruct (N.eqb_spec a b)
         end; settle; cbn [andb].
  all: f_equal; f_equal; lia.
Qed.

Lemma encode_scalar (s : pystr) :
  Forall (fun c => scalar c = true) s ->
  exists b, encode s = Some b /\ decode b = Some s.
Proof.
  induction 1 as [|c r Hc _ IH].
  - exists []. split; reflexivity.
  - destruct IH as (br & Hbr & Hdec).
    destruct (decode_encode_char c br Hc) as (b & Hb & Hd).
    exists (b ++ br). cbn [encode]. rewrite Hb, Hbr. split; [reflexivity|].
    rewrite Hd, Hdec. reflexivity.
Qed.

Lemma encode_char_Some (c : N) (b : pybytes) :
  encode_char c = Some b -> scalar c = true.
Proof.
  unfold encode_char. intros H. apply scalar_spec. unfold is_surrogate in H.
  repeat match type of H with
    | context [?a <? ?b] => destruct (N.ltb_spec a b)
    | context [?a <=? ?b] => destruct (N.leb_spec a b)
    end; cbn [andb] in H; try discriminate; lia.
Qed.

Lemma encode_Some (s : pystr) (b : pybytes) :
  encode s = Some b -> Forall (fun c => scalar c = true) s.
Proof.
  revert b. induction s as [|c r IH]; intros b H; [constructor|].
  cbn [encode] in H.
  destruct (encode_char c) as [bc|] eqn:Ec; [|discriminate].
  destruct (encode r) as [br|] eqn:Er; [|discriminate].
  constructor; [eapply encode_char_Some; eauto | eapply IH; eauto].
Qed.

End Utf8Facts.

Module Sha256Facts.
Import Sha256.

Lemma state_bytes_length (s : state) : length (state_bytes s) = 32%nat.
Proof. destruct s. reflexivity. Qed.

(** A SHA-256 digest has 32 bytes, whatever the message. *)
Lemma digest_length (m : pybytes) : length (digest m) = 32%nat.
Proof. unfold digest. rewrite length_map. apply state_bytes_length. Qed.

End Sha256Facts.

Module HmacFacts.
Import Hmac.

Lemma hex_length (b : pybytes) : length (hex b) = (2 * length b)%nat.
Proof.
  unfold hex. induction b as [|x r IH]; [reflexivity|].
  cbn [flat_map app length]. rewrite IH. lia.
Qed.

Lemma hex_digit_lower (n : N) : n < 16 -> lower_hex (hex_digit n) = true.
Proof.
  intros Hn. unfold lower_hex, hex_digit.
  destruct (N.ltb_spec n 10).
  - apply orb_true_iff. left. apply andb_true_iff. split; apply N.leb_le; lia.
  - apply orb_true_iff. right. apply andb_true_iff. split; apply N.leb_le; lia.
Qed.

Lemma hex_all_lower (b : pybytes) : Forall (fun c => lower_hex c = true) (hex b).
Proof.
  unfold hex. induction b as [|x r IH]; [constructor|].
  cbn [flat_map app]. pose proof (Byte.to_N_bounded x).
  constructor; [|constructor; [|exact IH]]; apply hex_digit_lower; lia.
Qed.

Lemma hexdigest_length (key msg : pybytes) : length (hexdigest key msg) = 64%nat.
Proof.
  unfold hexdigest, digest. rewrite hex_length, Sha256Facts.digest_length. reflexivity.
Qed.

End HmacFacts.

(** C1 (amended): for every secret that [str.encode] accepts (no surrogate
    code points) and every body, [compute_signature] returns ["sha256="]
    followed by the 64 lowercase hexadecimal digits of the HMAC-SHA256 of the
    body under the UTF-8 encoding of the secret; the same inputs give the
    same string. *)
Theorem compute_signature_spec (secret : pystr) (body : pybytes) :
  Forall (fun c => Utf8.scalar c = true) secret ->
  exists key digest,
    Utf8.encode secret = Some key /\
    digest = Hmac.hex (Hmac.digest key body) /\
    compute_signature secret body = Some (lit "sha256=" ++ digest) /\
    length digest = 64%nat /\
    Forall (fun c => Hmac.lower_hex c = true) digest /\
    (forall secret' body',
        secret' = secret -> body' = body ->
        compute_signature secret' body' = compute_signature secret body).
Proof.
  intros Hs. destruct (Utf8Facts.encode_scalar secret Hs) as (key & Hkey & _).
  exists key, (Hmac.hex (Hmac.digest key body)).
  split; [exact Hkey|]. split; [reflexivity|].
  split; [unfold compute_signature; rewrite Hkey; reflexivity|].
  split; [apply HmacFacts.hexdigest_length|].
  split; [apply HmacFacts.hex_all_lower|].
  intros ? ? -> ->. reflexivity.
Qed.

Lemma compute_signature_spec_witness :
  exists key digest,
    Utf8.encode (lit "Jefe") = Some key /\
    digest = Hmac.hex (Hmac.digest key (lit_bytes "what do ya want for nothing?")) /\
    compute_signature (lit "Jefe") (lit_bytes "what do ya want for nothing?")
    = Some (lit "sha256=" ++ digest) /\
    length digest = 64%nat /\
    Forall (fun c => Hmac.lower_hex c = true) digest /\
    (forall secret' body',
        secret' = lit "Jefe" -> body' = lit_bytes "what do ya want for nothing?" ->
        compute_signature secret' body'
        = compute_signature (lit "Jefe") (lit_bytes "what do ya want for nothing?")).
Proof.
  apply (compute_signature_spec (lit "Jefe") (lit_bytes "what do ya want for nothing?")).
  repeat constructor.
Defined.

(** C1, as stated, fails: a secret holding a lone surrogate (what
    [os.environ] gives for the undecodable byte 0xFF) is a [str], and
    [secret.encode("utf-8")] raises on it. *)
Lemma compute_signature_surrogate_secret :
  compute_signature [0xDCFF] (lit_bytes "{}") = None.
Proof. reflexivity. Qed.

Module JsonFacts.
Import Json.

#[local] Abbreviation esc := (flat_map escape_char).

(** One-step equations of [scanstring]. *)
Lemma scanstring_plain (c : N) (r : pystr) :
  c <> QUOTE -> 32 <= c -> c <> BACKSLASH ->
  scanstring (c :: r) = push c (scanstring r).
Proof.
  intros H1 H2 H3. cbn [scanstring].
  destruct (N.eqb_spec c QUOTE); [contradiction|].
  destruct (N.ltb_spec c 32); [lia|].
  destruct (N.eqb_spec c BACKSLASH); [contradiction|]. reflexivity.
Qed.

Lemma scanstring_short (e x : N) (r : pystr) :
  unescape e = Some x -> e <> 117 ->
  scanstring (BACKSLASH :: e :: r) = push x (scanstring r).
Proof.
  intros Hx He. cbn [scanstring]. cbn [N.eqb N.ltb N.compare Pos.eqb Pos.compare Pos.compare_cont negb].
  destruct (N.eqb_spec e 117); [contradiction|]. cbn [negb]. rewrite Hx. reflexivity.
Qed.

Lemma scanstring_u (h1 h2 h3 h4 u : N) (r : pystr) :
  hex4 h1 h2 h3 h4 = Some u -> u < 0xD800 ->
  scanstring (BACKSLASH :: 117 :: h1 :: h2 :: h3 :: h4 :: r) = push u (scanstring r).
Proof.
  intros Hu Hlt. cbn [scanstring]. cbn [N.eqb N.ltb N.compare Pos.eqb Pos.compare Pos.compare_cont negb].
  rewrite Hu. destruct (N.leb_spec 0xD800 u); [lia|]. reflexivity.
Qed.

Lemma hexval_hex_lower (n : N) : n < 16 -> hexval (hex_lower n) = Some n.
Proof.
  intros Hn. unfold hexval, hex_lower, is_digit.
  destruct (N.ltb_spec n 10).
  - destruct (N.leb_spec 48 (48 + n)); [|lia].
    destruct (N.leb_spec (48 + n) 57); [|lia]. cbn [andb]. f_equal. lia.
  - destruct (N.leb_spec 48 (87 + n)); [|lia].
    destruct (N.leb_spec (87 + n) 57); [lia|]. cbn [andb].
    destruct (N.leb_spec 97 (87 + n)); [|lia].
    destruct (N.leb_spec (87 + n) 102); [|lia]. cbn [andb]. f_equal. lia.
Qed.

Lemma hex4_u_escape (c : N) :
  c < 0x10000 ->
  hex4 (hex_lower (c / 4096 mod 16)) (hex_lower (c / 256 mod 16))
       (hex_lower (c / 16 mod 16)) (hex_lower (c mod 16)) = Some c.
Proof.
  intros Hc. unfold hex4.
  rewrite !hexval_hex_lower by (apply N.mod_lt; discriminate).
  f_equal. lia.
Qed.

(** The scanner undoes the escaping of one character. *)
Lemma scanstring_escape_char (c : N) (r : pystr) :
  scanstring (escape_char c ++ r) = push c (scanstring r).
Proof.
  unfold escape_char.
  destruct (N.eqb_spec c QUOTE) as [->|H1]; [reflexivity|].
  destruct (N.eqb_spec c BACKSLASH) as [->|H2]; [reflexivity|].
  destruct (N.eqb_spec c 10) as [->|H3]; [reflexivity|].
  destruct (N.eqb_spec c 13) as [->|H4]; [reflexivity|].
  destruct (N.eqb_spec c 9) as [->|H5]; [reflexivity|].
  destruct (N.eqb_spec c 8) as [->|H6]; [reflexivity|].
  destruct (N.eqb_spec c 12) as [->|H7]; [reflexivity|].
  destruct (N.ltb_spec c 32) as [H8|H8].
  - unfold u_escape. cbn [app].
    apply scanstring_u; [apply hex4_u_escape|]; lia.
  - cbn [app]. now apply scanstring_plain.
Qed.

(** The scanner reads back any string the encoder wrote
    ([ensure_ascii=False]), up to the closing quote. *)
Lemma scanstring_escape (s rest : pystr) :
  scanstring (esc s ++ QUOTE :: rest) = Some (s, rest).
Proof.
  induction s as [|c r IH]; [reflexivity|].
  cbn [flat_map]. rewrite <- app_assoc, scanstring_escape_char, IH. reflexivity.
Qed.

(** Characters the encoder leaves alone, among them every non-ASCII one. *)
Lemma escape_char_literal (c : N) :
  32 <= c -> c <> QUOTE -> c <> BACKSLASH -> escape_char c = [c].
Proof.
  intros H1 H2 H3. unfold escape_char.
  destruct (N.eqb_spec c QUOTE); [contradiction|].
  destruct (N.eqb_spec c BACKSLASH); [contradiction|].
  repeat match goal with
    | |- context [c =? ?k] => destruct (N.eqb_spec c k); [lia|]
    end.
  destruct (N.ltb_spec c 32); [lia|]. reflexivity.
Qed.

Lemma escape_char_non_ascii (c : N) : 128 <= c -> escape_char c = [c].
Proof. intros H. apply escape_char_literal; lia. Qed.

(** Escaping never produces a character the UTF-8 encoder rejects. *)
Lemma escape_char_scalar (c : N) :
  Utf8.scalar c = true -> Forall (fun x => Utf8.scalar x = true) (escape_char c).
Proof.
  intros Hc. unfold escape_char, u_escape.
  repeat match goal with
    | |- context [if ?b then _ else _] => destruct b
    end; repeat constructor; try exact Hc.
  all: apply Utf8Facts.scalar_spec; unfold hex_lower;
    match goal with |- context [?a <? 10] => destruct (N.ltb_spec a 10) end;
    pose proof (N.mod_lt (c / 16) 16); pose proof (N.mod_lt c 16); lia.
Qed.

Lemma esc_scalar (s : pystr) :
  Forall (fun x => Utf8.scalar x = true) s ->
  Forall (fun x => Utf8.scalar x = true) (esc s).
Proof.
  induction 1 as [|c r Hc _ IH]; [constructor|].
  cbn [flat_map]. apply Forall_app. split; [now apply escape_char_scalar | exact IH].
Qed.

End JsonFacts.

Module JsonFacts2.
Import Json JsonFacts.
#[local] Abbreviation esc := (flat_map escape_char).

Lemma scan_once_eq (lim : limits) (f depth : nat) (s : pystr) :
  scan_once lim (S f) depth s =
    match s with
    | [] => Err
    | c :: r =>
        if c =? QUOTE then
          match scanstring r with
          | Some (str, r') => Ok (Str str) r'
          | None => Err
          end
        else if c =? 123 then
          match depth with
          | O => Stop RecursionError
          | S d =>
              match skip_ws r with
              | c1 :: r1 =>
                  if c1 =? 125 then Ok (Dict []) r1
                  else if c1 =? QUOTE then parse_members lim f d [] r1
                  else Err
              | [] => Err
              end
          end
        else if c =? 91 then
          match depth with
          | O => Stop RecursionError
          | S d =>
              match skip_ws r with
              | c1 :: r1 =>
                  if c1 =? 93 then Ok (List []) r1
                  else parse_elements lim f d [] (c1 :: r1)
              | [] => Err
              end
          end
        else scan_constant lim s
    end.
Proof. reflexivity. Qed.

Lemma parse_members_eq (lim : limits) (f depth : nat) (acc : list (pystr * value))
      (s : pystr) :
  parse_members lim (S f) depth acc s =
    match scanstring s with
    | None => Err
    | Some (key, r) =>
        match skip_ws r with
        | c :: r1 =>
            if negb (c =? 58) then Err
            else
              match scan_once lim f depth (skip_ws r1) with
              | Err => Err
              | Stop e => Stop e
              | OutOfFuel => OutOfFuel
              | Ok v r2 =>
                  let acc' := acc ++ [(key, v)] in
                  match skip_ws r2 with
                  | c2 :: r3 =>
                      if c2 =? 125 then Ok (Dict (dict_of_pairs acc')) r3
                      else if negb (c2 =? 44) then Err
                      else
                        match skip_ws r3 with
                        | c3 :: r4 =>
                            if c3 =? QUOTE then parse_members lim f depth acc' r4
                            else Err
                        | [] => Err
                        end
                  | [] => Err
                  end
              end
        | [] => Err
        end
    end.
Proof. reflexivity. Qed.

(** A member [key:value] written without white space, followed by a
    comma and the quote of the next key. *)
Lemma parse_members_next (lim : limits) (f depth : nat) acc (k v r : pystr) :
  parse_members lim (S (S f)) depth acc
    (esc k ++ QUOTE :: 58 :: QUOTE :: esc v ++ QUOTE :: 44 :: QUOTE :: r)
  = parse_members lim (S f) depth (acc ++ [(k, Str v)]) r.
Proof.
  rewrite parse_members_eq, scanstring_escape.
  cbn [skip_ws is_ws N.eqb Pos.eqb orb negb].
  rewrite scan_once_eq. cbn [N.eqb Pos.eqb].
  rewrite scanstring_escape. reflexivity.
Qed.

(** The last member, followed by the closing brace. *)
Lemma parse_members_last (lim : limits) (f depth : nat) acc (k v r : pystr) :
  parse_members lim (S (S f)) depth acc
    (esc k ++ QUOTE :: 58 :: QUOTE :: esc v ++ QUOTE :: 125 :: r)
  = Ok (Dict (dict_of_pairs (acc ++ [(k, Str v)]))) r.
Proof.
  rewrite parse_members_eq, scanstring_escape.
  cbn [skip_ws is_ws N.eqb Pos.eqb orb negb].
  rewrite scan_once_eq. cbn [N.eqb Pos.eqb].
  rewrite scanstring_escape. reflexivity.
Qed.

End JsonFacts2.

Section Serializer.
Import Json JsonFacts JsonFacts2.
#[local] Abbreviation esc := (flat_map escape_char).
Variables ts name email resume repo run : pystr.

Let payload := payload_dict ts name email resume repo run.

(** The serialized payload, character by character. *)
Lemma serialize_cons :
  serialize payload =
    123 :: QUOTE :: esc (lit "action_run_link") ++ QUOTE :: 58 :: QUOTE :: esc run
    ++ QUOTE :: 44 :: QUOTE :: esc (lit "email") ++ QUOTE :: 58 :: QUOTE :: esc email
    ++ QUOTE :: 44 :: QUOTE :: esc (lit "name") ++ QUOTE :: 58 :: QUOTE :: esc name
    ++ QUOTE :: 44 :: QUOTE :: esc (lit "repository_link") ++ QUOTE :: 58 :: QUOTE :: esc repo
    ++ QUOTE :: 44 :: QUOTE :: esc (lit "resume_link") ++ QUOTE :: 58 :: QUOTE :: esc resume
    ++ QUOTE :: 44 :: QUOTE :: esc (lit "timestamp") ++ QUOTE :: 58 :: QUOTE :: esc ts
    ++ [QUOTE; 125].
Proof.
  unfold serialize, dumps, payload, payload_dict.
  change (sorted_items _) with
    [(lit "action_run_link", run); (lit "email", email); (lit "name", name);
     (lit "repository_link", repo); (lit "resume_link", resume); (lit "timestamp", ts)].
  cbn [map join fst snd]. unfold encode_basestring.
  repeat (rewrite <- ?app_assoc; cbn [app lit map list_ascii_of_string]).
  reflexivity.
Qed.

Lemma scan_serialize (lim : limits) (f depth : nat) :
  scan_once lim (8 + f) (S depth) (serialize payload) =
    Ok (Dict [(lit "action_run_link", Str run); (lit "email", Str email);
              (lit "name", Str name); (lit "repository_link", Str repo);
              (lit "resume_link", Str resume); (lit "timestamp", Str ts)]) [].
Proof.
  rewrite serialize_cons. cbn [Nat.add].
  rewrite scan_once_eq. cbn [N.eqb Pos.eqb skip_ws is_ws orb].
  rewrite !parse_members_next, parse_members_last. reflexivity.
Qed.

Lemma serialize_length : (6 <= length (serialize payload))%nat.
Proof.
  rewrite serialize_cons. repeat (rewrite ?length_app; cbn [length]). lia.
Qed.

(** [json.loads] reads the serialized payload back as a [dict] of the six
    fields, in an interpreter that allows one nested call. *)
Lemma loads_serialize (lim : limits) :
  (1 <= recursion_depth lim)%nat ->
  loads lim (serialize payload) =
    Returns (Dict [(lit "action_run_link", Str run); (lit "email", Str email);
                   (lit "name", Str name); (lit "repository_link", Str repo);
                   (lit "resume_link", Str resume); (lit "timestamp", Str ts)]).
Proof.
  intros Hd. unfold loads, decode.
  assert (skip_ws (serialize payload) = serialize payload) as ->
    by (rewrite serialize_cons; reflexivity).
  pose proof serialize_length as Hlen.
  replace (1 + 2 * length (serialize payload))%nat
    with (8 + (2 * length (serialize payload) - 7))%nat by lia.
  destruct (recursion_depth lim) as [|d]; [lia|].
  rewrite scan_serialize. reflexivity.
Qed.

Lemma serialize_scalar :
  Forall (fun c => Utf8.scalar c = true) (ts ++ name ++ email ++ resume ++ repo ++ run) ->
  Forall (fun c => Utf8.scalar c = true) (serialize payload).
Proof.
  rewrite !Forall_app. intros (Hts & Hname & Hemail & Hresume & Hrepo & Hrun).
  rewrite serialize_cons.
  repeat first [ apply List.Forall_cons; [reflexivity|]
               | apply Forall_app; split;
                 [apply esc_scalar; first [assumption | repeat constructor]|]
               | apply List.Forall_nil ].
Qed.

End Serializer.

(** C2 (amended): for every payload whose six field values [str.encode]
    accepts (no surrogate code points), serialization yields one byte string,
    the UTF-8 encoding of a compact JSON object whose keys are sorted and
    whose values are escaped only where JSON requires it (non-ASCII
    characters stand for themselves); parsing it gives the six fields back,
    in every interpreter that has room for one nested call. *)
Theorem serialize_roundtrip (ts name email resume repo run : pystr) :
  Forall (fun c => Utf8.scalar c = true) (ts ++ name ++ email ++ resume ++ repo ++ run) ->
  let payload := payload_dict ts name email resume repo run in
  let jstr := Json.encode_basestring false in
  exists body : pybytes,
    Utf8.encode (serialize payload) = Some body /\
    (forall body', Utf8.encode (serialize payload) = Some body' -> body' = body) /\
    Utf8.decode body = Some (serialize payload) /\
    serialize payload =
      lit "{" ++ jstr (lit "action_run_link") ++ lit ":" ++ jstr run
      ++ lit "," ++ jstr (lit "email") ++ lit ":" ++ jstr email
      ++ lit "," ++ jstr (lit "name") ++ lit ":" ++ jstr name
      ++ lit "," ++ jstr (lit "repository_link") ++ lit ":" ++ jstr repo
      ++ lit "," ++ jstr (lit "resume_link") ++ lit ":" ++ jstr resume
      ++ lit "," ++ jstr (lit "timestamp") ++ lit ":" ++ jstr ts ++ lit "}" /\
    (forall c, 128 <= c -> jstr [c] = [34; c; 34]) /\
    exists d,
      (forall lim, (1 <= recursion_depth lim)%nat ->
                   Json.loads lim (serialize payload) = Json.Returns (Json.Dict d)) /\
      length d = 6%nat /\
      Json.dict_get d (lit "timestamp") = Some (Json.Str ts) /\
      Json.dict_get d (lit "name") = Some (Json.Str name) /\
      Json.dict_get d (lit "email") = Some (Json.Str email) /\
      Json.dict_get d (lit "resume_link") = Some (Json.Str resume) /\
      Json.dict_get d (lit "repository_link") = Some (Json.Str repo) /\
      Json.dict_get d (lit "action_run_link") = Some (Json.Str run).
Proof.
  intros Hs payload jstr.
  destruct (Utf8Facts.encode_scalar _ (serialize_scalar ts name email resume repo run Hs))
    as (body & Henc & Hdec).
  exists body. fold payload in Henc, Hdec.
  split; [exact Henc|].
  split; [intros body' H'; congruence|].
  split; [exact Hdec|].
  split.
  { unfold payload. rewrite serialize_cons. unfold jstr, Json.encode_basestring.
    repeat (rewrite <- ?app_assoc; cbn [app lit map list_ascii_of_string]).
    reflexivity. }
  split.
  { intros c Hc. unfold jstr, Json.encode_basestring. cbn [flat_map].
    rewrite JsonFacts.escape_char_non_ascii by exact Hc. reflexivity. }
  eexists. split; [intros lim Hlim; now apply loads_serialize|].
  repeat split.
Qed.

Lemma serialize_roundtrip_witness :
  exists body : pybytes,
    Utf8.encode (serialize (payload_dict (lit "2024-02-29T23:59:58.123000Z") [74; 233; 0x1F600]
                              (lit "a@b.c") [34; 92; 10] [] (lit "x y"))) = Some body.
Proof.
  destruct (serialize_roundtrip (lit "2024-02-29T23:59:58.123000Z") [74; 233; 0x1F600]
              (lit "a@b.c") [34; 92; 10] [] (lit "x y")) as (body & H & _).
  - repeat constructor.
  - exists body. exact H.
Defined.

(** C2, as stated, fails: a field holding a lone surrogate cannot be
    encoded, so no bytes are produced at all. *)
Lemma serialize_surrogate_field :
  Utf8.encode (serialize (payload_dict (lit "2024-02-29T23:59:58Z") [0xDCFF]
                            (lit "a@b.c") [] [] [])) = None.
Proof. vm_compute. reflexivity. Qed.

Module TextFacts.
Import Text.

Lemma strip_prefix_head (x c : N) (w s : pystr) :
  x <> c -> Json.strip_prefix (x :: w) (c :: s) = None.
Proof.
  intros H. cbn [Json.strip_prefix].
  destruct (N.eqb_spec x c); [contradiction | reflexivity].
Qed.

Lemma replace_from_no_plus (s : pystr) :
  no_plus s ->
  replace_from (lit "+00:00") (lit "Z") 0 (s ++ lit "+00:00") = s ++ lit "Z".
Proof.
  induction 1 as [|c r Hc _ IH]; [reflexivity|].
  cbn [app replace_from].
  change (lit "+00:00") with [43; 48; 48; 58; 48; 48] at 1.
  rewrite strip_prefix_head by congruence.
  change [43; 48; 48; 58; 48; 48] with (lit "+00:00").
  rewrite IH. reflexivity.
Qed.

(** Replacing the offset of UTC by [Z] in a string that holds no other
    plus sign. *)
Lemma replace_utc_offset (s : pystr) :
  no_plus s -> replace (lit "+00:00") (lit "Z") (s ++ lit "+00:00") = s ++ lit "Z".
Proof. intros H. now apply replace_from_no_plus. Qed.

Lemma no_plus_app (a b : pystr) : no_plus a -> no_plus b -> no_plus (a ++ b).
Proof. intros Ha Hb. apply Forall_app. now split. Qed.

Lemma no_plus_char (c : N) : c <> 43 -> no_plus [c].
Proof. intros H. constructor; [exact H | constructor]. Qed.

Lemma fixed_no_plus (w : nat) (n : N) : no_plus (fixed w n).
Proof.
  revert n. induction w as [|k IH]; intros n; [constructor|].
  cbn [fixed]. apply Forall_app. split; [apply IH|].
  constructor; [lia | constructor].
Qed.

Lemma fixed_length (w : nat) (n : N) : length (fixed w n) = w.
Proof.
  revert n. induction w as [|k IH]; intros n; [reflexivity|].
  cbn [fixed]. rewrite length_app, IH. cbn. lia.
Qed.

Lemma zero_pad_fixed (w : nat) (bound n : N) :
  10 ^ N.of_nat w = bound -> n < bound -> zero_pad w n = fixed w n.
Proof.
  intros <- H. unfold zero_pad.
  destruct (N.ltb_spec n (10 ^ N.of_nat w)) as [_|Hge]; [reflexivity|].
  exfalso. apply (N.lt_irrefl n). eapply N.lt_le_trans; eassumption.
Qed.

(** Six digits of a whole number of milliseconds: three digits and
    [000]. *)
Lemma fixed_millis (ms : N) : fixed 6 (ms * 1000) = fixed 3 ms ++ lit "000".
Proof.
  cbn [fixed app].
  replace (ms * 1000 / 10 / 10 / 10) with ms by lia.
  replace ((ms * 1000) mod 10) with 0 by lia.
  replace ((ms * 1000 / 10) mod 10) with 0 by lia.
  replace ((ms * 1000 / 10 / 10) mod 10) with 0 by lia.
  reflexivity.
Qed.

End TextFacts.

(** The timestamp of a valid instant, part by part; it holds no plus
    sign. *)
Lemma iso8601_timestamp_shape (w : World) :
  valid_datetime (utcnow w) ->
  iso8601_timestamp w
  = (Text.fixed 4 (year (utcnow w)) ++ lit "-" ++ Text.fixed 2 (month (utcnow w)) ++ lit "-"
     ++ Text.fixed 2 (day (utcnow w)) ++ lit "T" ++ Text.fixed 2 (hour (utcnow w)) ++ lit ":"
     ++ Text.fixed 2 (minute (utcnow w)) ++ lit ":" ++ Text.fixed 2 (second (utcnow w)))
    ++ (if microsecond (utcnow w) / 1000 =? 0 then []
        else lit "." ++ Text.fixed 3 (microsecond (utcnow w) / 1000) ++ lit "000")
    ++ lit "Z"
  /\ Text.no_plus (iso8601_timestamp w).
Proof.
  intros Hv. set (now := utcnow w). set (ms := microsecond now / 1000).
  destruct Hv as (Hy & Hmo & Hd & Hh & Hmi & Hs & Hus). fold now in Hy, Hmo, Hd, Hh, Hmi, Hs, Hus.
  unfold iso8601_timestamp, isoformat, iso_seconds. fold now. fold ms.
  cbn [year month day hour minute second microsecond replace_microsecond].
  rewrite (TextFacts.zero_pad_fixed 4 10000) by (reflexivity || lia).
  rewrite !(TextFacts.zero_pad_fixed 2 100) by (reflexivity || lia).
  assert (Hbound : ms * 1000 < 1000000) by (unfold ms; lia).
  rewrite (TextFacts.zero_pad_fixed 6 1000000 (ms * 1000) eq_refl Hbound).
  assert (Hfrac :
    (if ms * 1000 =? 0 then [] else lit "." ++ Text.fixed 6 (ms * 1000))
    = (if ms =? 0 then [] else lit "." ++ Text.fixed 3 ms ++ lit "000")).
  { destruct (N.eqb_spec ms 0) as [->|Hms]; [reflexivity|].
    destruct (N.eqb_spec (ms * 1000) 0); [lia|].
    now rewrite TextFacts.fixed_millis. }
  rewrite Hfrac.
  set (secs := Text.fixed 4 (year now) ++ _).
  set (frac := if ms =? 0 then _ else _).
  assert (Hnp : Text.no_plus (secs ++ frac)).
  { unfold secs, frac. destruct (ms =? 0).
    all: repeat first [ apply TextFacts.fixed_no_plus
                      | apply TextFacts.no_plus_char; discriminate
                      | apply List.Forall_nil
                      | apply TextFacts.no_plus_app
                      | apply List.Forall_cons; [discriminate|] ]. }
  rewrite (app_assoc secs frac (lit "+00:00")).
  rewrite TextFacts.replace_utc_offset by exact Hnp.
  split; [now rewrite <- app_assoc|].
  apply TextFacts.no_plus_app; [exact Hnp | apply TextFacts.no_plus_char; discriminate].
Qed.

(** C3 (what the code does): for every valid UTC instant the timestamp is the date and time to
    the second, then (unless the truncated value is zero, where
    [isoformat] prints no fraction) a dot, the three digits of the
    microsecond count floored to milliseconds and three zeros, then the
    single letter [Z]; it holds no plus sign. *)
Theorem iso8601_timestamp_spec (w : World) :
  valid_datetime (utcnow w) ->
  let now := utcnow w in
  let ms := microsecond now / 1000 in
  iso8601_timestamp w
  = (Text.fixed 4 (year now) ++ lit "-" ++ Text.fixed 2 (month now) ++ lit "-"
     ++ Text.fixed 2 (day now) ++ lit "T" ++ Text.fixed 2 (hour now) ++ lit ":"
     ++ Text.fixed 2 (minute now) ++ lit ":" ++ Text.fixed 2 (second now))
    ++ (if ms =? 0 then [] else lit "." ++ Text.fixed 3 ms ++ lit "000")
    ++ lit "Z"
  /\ 1000 * ms <= microsecond now < 1000 * ms + 1000
  /\ last (iso8601_timestamp w) = Some 90
  /\ ~ In 43 (iso8601_timestamp w).
Proof.
  intros Hv now ms.
  destruct (iso8601_timestamp_shape w Hv) as [Hshape Hnp]. fold now in Hshape. fold ms in Hshape.
  split; [exact Hshape|].
  split; [unfold ms; lia|].
  split.
  - rewrite Hshape, !app_assoc. apply last_snoc.
  - intros Hin. unfold Text.no_plus in Hnp. rewrite List.Forall_forall in Hnp.
    now apply (Hnp 43 Hin).
Qed.

(** ** Standard output *)

Module LimitFacts.

(** Standard output takes every string UTF-8 can encode, whatever its
  error handler. *)
Lemma accepts_scalar (h : error_handler) (s : pystr) :
Forall (fun c => Utf8.scalar c = true) s -> forallb (stdout_accepts h) s = true.
Proof.
intros H. apply forallb_forall. rewrite List.Forall_forall in H.
intros c Hc. unfold stdout_accepts. now rewrite (H c Hc).
Qed.

Lemma accepts_app (h : error_handler) (a b : pystr) :
forallb (stdout_accepts h) (a ++ b)
= forallb (stdout_accepts h) a && forallb (stdout_accepts h) b.
Proof. apply forallb_app. Qed.

(** The strict handler takes nothing else. *)
Lemma accepts_strict (s : pystr) :
forallb (stdout_accepts Strict) s = true <-> Forall (fun c => Utf8.scalar c = true) s.
Proof.
rewrite forallb_forall, List.Forall_forall. unfold stdout_accepts.
split; intros H c Hc; specialize (H c Hc).
- now rewrite orb_false_r in H.
- now rewrite H.
Qed.

End LimitFacts.

(** * The script *)

(** Unfold the monadic plumbing of [main]. *)
Ltac unfold_proc :=
  unfold run_main, main, build_payload, os_environ_getitem, try_except, str_encode,
    bytes_decode, json_loads, urlopen, error_read, py_get, py_getitem, print,
    print_err, sys_exit, raise, mbind, proc_bind, mret, proc_ret.

Section Main.
Variable py_repr : Json.value -> pystr.
Variable w : World.

Lemma build_payload_set (link : pystr) (s : io) :
  environ w !! "B12_ACTION_RUN_LINK" = Some link ->
  build_payload w s = (s, Ret (payload_of w link)).
Proof. intros H. unfold_proc. rewrite H. reflexivity. Qed.

Lemma build_payload_unset (s : io) :
  environ w !! "B12_ACTION_RUN_LINK" = None ->
  build_payload w s = (s, Raise (KeyError (lit "B12_ACTION_RUN_LINK"))).
Proof. intros H. unfold_proc. rewrite H. reflexivity. Qed.

Lemma main_no_secret :
  environ w !! "B12_SIGNING_SECRET" = None ->
  run_main py_repr w = (mkIo [] [lit "Missing B12_SIGNING_SECRET"] [], Exit 1).
Proof. intros H. unfold_proc. rewrite H. reflexivity. Qed.

Lemma main_empty_secret :
  environ w !! "B12_SIGNING_SECRET" = Some [] ->
  run_main py_repr w = (mkIo [] [lit "Missing B12_SIGNING_SECRET"] [], Exit 1).
Proof. intros H. unfold_proc. rewrite H. reflexivity. Qed.

Lemma main_no_link (secret : pystr) :
  environ w !! "B12_SIGNING_SECRET" = Some secret -> secret <> [] ->
  environ w !! "B12_ACTION_RUN_LINK" = None ->
  run_main py_repr w
  = (mkIo [] [lit "Missing required environment variable: 'B12_ACTION_RUN_LINK'"] [],
     Exit 1).
Proof.
  intros Hs Hne Hl. destruct secret as [|c s]; [contradiction|].
  unfold_proc. rewrite Hs, Hl. reflexivity.
Qed.

Lemma main_unencodable_body (secret link : pystr) :
  environ w !! "B12_SIGNING_SECRET" = Some secret -> secret <> [] ->
  environ w !! "B12_ACTION_RUN_LINK" = Some link ->
  Utf8.encode (serialize (payload_of w link)) = None ->
  run_main py_repr w = (mkIo [] [] [], Raise UnicodeEncodeError).
Proof.
  intros Hs Hne Hl He. destruct secret as [|c s]; [contradiction|].
  unfold_proc. rewrite Hs, Hl. cbn beta iota. fold (payload_of w link).
  rewrite He. reflexivity.
Qed.

Lemma main_unencodable_secret (secret link : pystr) (body : pybytes) :
  environ w !! "B12_SIGNING_SECRET" = Some secret -> secret <> [] ->
  environ w !! "B12_ACTION_RUN_LINK" = Some link ->
  Utf8.encode (serialize (payload_of w link)) = Some body ->
  compute_signature secret body = None ->
  run_main py_repr w = (mkIo [] [] [], Raise UnicodeEncodeError).
Proof.
  intros Hs Hne Hl He Hsig. destruct secret as [|c s]; [contradiction|].
  unfold_proc. rewrite Hs, Hl. cbn beta iota. fold (payload_of w link).
  rewrite He. cbn beta iota. rewrite Hsig. reflexivity.
Qed.

(** Bring a run that reaches the transport step to the point where the
    reply is inspected. *)
Ltac to_transport H :=
  let secret := fresh "secret" in
  destruct H as (Hs & Hne & (link & Hl & He) & Hsig);
  match type of Hs with _ = Some ?x => destruct x as [|? ?]; [contradiction|] end;
  unfold_proc; rewrite Hs, Hl; cbn beta iota; fold (payload_of w link);
  rewrite He; cbn beta iota; rewrite Hsig; cbn beta iota;
  cbn [stdout stderr sent app].

Lemma main_sent (secret : pystr) (body : pybytes) (sig : pystr) :
  reaches_transport w secret body sig ->
  sent (fst (run_main py_repr w)) = [make_request body sig].
Proof.
  intros H. to_transport H.
  destruct (network w _) as [raw|code reason eb|reason]; cbn beta iota.
  - destruct (Utf8.decode raw) as [text|]; cbn beta iota; [|reflexivity].
    destruct (Json.loads (interpreter w) text) as [v|e]; cbn beta iota;
      [|destruct e; reflexivity].
    destruct v; try reflexivity. cbn beta iota.
    destruct (is_True _ && py_in _ _); [|reflexivity].
    destruct (Json.dict_get _ _); [|reflexivity]. cbn beta iota.
    destruct (forallb _ _); reflexivity.
  - destruct eb as [b|]; [destruct (Utf8.decode b)|]; reflexivity.
  - reflexivity.
Qed.

Lemma main_response_receipt (secret : pystr) (body : pybytes) (sig : pystr)
      (raw : pybytes) (text : pystr) d (receipt : Json.value) :
  reaches_transport w secret body sig ->
  network w (make_request body sig) = Response raw ->
  Utf8.decode raw = Some text ->
  Json.loads (interpreter w) text = Json.Returns (Json.Dict d) ->
  Json.dict_get d (lit "success") = Some (Json.Bool true) ->
  Json.dict_get d (lit "receipt") = Some receipt ->
  forallb (stdout_accepts (stdout_errors w))
          (lit "Submission receipt: " ++ format_value py_repr receipt) = true ->
  run_main py_repr w
  = (mkIo [lit "Submission receipt: " ++ format_value py_repr receipt] []
          [make_request body sig], Exit 0).
Proof.
  intros H Hn Hd Hj Hok Hr Hp. to_transport H.
  rewrite Hn, Hd. cbn beta iota. rewrite Hj. cbn beta iota.
  rewrite Hok. cbn [is_True py_in andb]. rewrite Hr. cbn beta iota.
  rewrite Hp. reflexivity.
Qed.

(** A receipt that standard output cannot encode. *)
Lemma main_response_unprintable (secret : pystr) (body : pybytes) (sig : pystr)
      (raw : pybytes) (text : pystr) d (receipt : Json.value) :
  reaches_transport w secret body sig ->
  network w (make_request body sig) = Response raw ->
  Utf8.decode raw = Some text ->
  Json.loads (interpreter w) text = Json.Returns (Json.Dict d) ->
  Json.dict_get d (lit "success") = Some (Json.Bool true) ->
  Json.dict_get d (lit "receipt") = Some receipt ->
  forallb (stdout_accepts (stdout_errors w))
          (lit "Submission receipt: " ++ format_value py_repr receipt) = false ->
  run_main py_repr w = (mkIo [] [] [make_request body sig], Raise UnicodeEncodeError).
Proof.
  intros H Hn Hd Hj Hok Hr Hp. to_transport H.
  rewrite Hn, Hd. cbn beta iota. rewrite Hj. cbn beta iota.
  rewrite Hok. cbn [is_True py_in andb]. rewrite Hr. cbn beta iota.
  rewrite Hp. reflexivity.
Qed.

Lemma main_response_invalid_json (secret : pystr) (body : pybytes) (sig : pystr)
      (raw : pybytes) (text : pystr) :
  reaches_transport w secret body sig ->
  network w (make_request body sig) = Response raw ->
  Utf8.decode raw = Some text ->
  Json.loads (interpreter w) text = Json.Raises JSONDecodeError ->
  run_main py_repr w
  = (mkIo [] [lit "Invalid JSON response from server"; text] [make_request body sig],
     Exit 1).
Proof.
  intros H Hn Hd Hj. to_transport H.
  rewrite Hn, Hd. cbn beta iota. rewrite Hj. reflexivity.
Qed.

(** An exception of [json.loads] that is not a [JSONDecodeError] passes
    the [except] clause. *)
Lemma main_response_loads_raises (secret : pystr) (body : pybytes) (sig : pystr)
      (raw : pybytes) (text : pystr) (e : exn) :
  reaches_transport w secret body sig ->
  network w (make_request body sig) = Response raw ->
  Utf8.decode raw = Some text ->
  Json.loads (interpreter w) text = Json.Raises e ->
  e <> JSONDecodeError ->
  run_main py_repr w = (mkIo [] [] [make_request body sig], Raise e).
Proof.
  intros H Hn Hd Hj Hne'. to_transport H.
  rewrite Hn, Hd. cbn beta iota. rewrite Hj. cbn beta iota.
  destruct e; try reflexivity. contradiction.
Qed.

Lemma main_response_rejected (secret : pystr) (body : pybytes) (sig : pystr)
      (raw : pybytes) (text : pystr) d :
  reaches_transport w secret body sig ->
  network w (make_request body sig) = Response raw ->
  Utf8.decode raw = Some text ->
  Json.loads (interpreter w) text = Json.Returns (Json.Dict d) ->
  Json.dict_get d (lit "success") <> Some (Json.Bool true)
  \/ Json.dict_get d (lit "receipt") = None ->
  run_main py_repr w
  = (mkIo [] [lit "Submission failed or unexpected response"; text]
          [make_request body sig], Exit 1).
Proof.
  intros H Hn Hd Hj Hno. to_transport H.
  rewrite Hn, Hd. cbn beta iota. rewrite Hj. cbn beta iota.
  assert (is_True (Json.dict_get d (lit "success")) && py_in (lit "receipt") (Json.Dict d)
          = false) as ->; [|reflexivity].
  destruct Hno as [Hno|Hno].
  - destruct (Json.dict_get d (lit "success")) as [v|]; [|reflexivity].
    destruct v as [|[|]| | | | |]; try reflexivity. now destruct Hno.
  - unfold py_in. rewrite Hno. apply andb_false_r.
Qed.

Lemma main_response_not_object (secret : pystr) (body : pybytes) (sig : pystr)
      (raw : pybytes) (text : pystr) (v : Json.value) :
  reaches_transport w secret body sig ->
  network w (make_request body sig) = Response raw ->
  Utf8.decode raw = Some text ->
  Json.loads (interpreter w) text = Json.Returns v ->
  (forall d, v <> Json.Dict d) ->
  run_main py_repr w = (mkIo [] [] [make_request body sig], Raise AttributeError).
Proof.
  intros H Hn Hd Hj Hv. to_transport H.
  rewrite Hn, Hd. cbn beta iota. rewrite Hj. cbn beta iota.
  destruct v; try reflexivity. now destruct (Hv items).
Qed.

Lemma main_response_undecodable (secret : pystr) (body : pybytes) (sig : pystr)
      (raw : pybytes) :
  reaches_transport w secret body sig ->
  network w (make_request body sig) = Response raw ->
  Utf8.decode raw = None ->
  run_main py_repr w = (mkIo [] [] [make_request body sig], Raise UnicodeDecodeError).
Proof.
  intros H Hn Hd. to_transport H. rewrite Hn, Hd. reflexivity.
Qed.

Lemma main_http_error (secret : pystr) (body : pybytes) (sig : pystr)
      (code : N) (reason : pystr) (ebody : option pybytes) :
  reaches_transport w secret body sig ->
  network w (make_request body sig) = HTTPFailure code reason ebody ->
  run_main py_repr w
  = (mkIo []
          ((lit "HTTP error: " ++ Text.dec code ++ lit " " ++ reason)
           :: match ebody with
              | Some b => match Utf8.decode b with Some t => [t] | None => [] end
              | None => []
              end)
          [make_request body sig], Exit 1).
Proof.
  intros H Hn. to_transport H. rewrite Hn. cbn beta iota.
  destruct ebody as [b|]; [destruct (Utf8.decode b)|]; reflexivity.
Qed.

Lemma main_url_error (secret : pystr) (body : pybytes) (sig : pystr) (reason : pystr) :
  reaches_transport w secret body sig ->
  network w (make_request body sig) = URLFailure reason ->
  run_main py_repr w
  = (mkIo [] [lit "Request failed: <urlopen error " ++ reason ++ lit ">"]
          [make_request body sig], Exit 1).
Proof. intros H Hn. to_transport H. rewrite Hn. reflexivity. Qed.

(** Either the run stops before the transport step, having sent nothing,
    or it reaches it. *)
Lemma main_reaches_or_not :
  sent (fst (run_main py_repr w)) = []
  \/ exists secret body sig, reaches_transport w secret body sig.
Proof.
  destruct (environ w !! "B12_SIGNING_SECRET") as [secret|] eqn:Hs;
    [|left; now rewrite main_no_secret].
  destruct secret as [|c s]; [left; now rewrite main_empty_secret|].
  destruct (environ w !! "B12_ACTION_RUN_LINK") as [link|] eqn:Hl;
    [|left; now rewrite (main_no_link (c :: s))].
  destruct (Utf8.encode (serialize (payload_of w link))) as [body|] eqn:He;
    [|left; now rewrite (main_unencodable_body (c :: s) link)].
  destruct (compute_signature (c :: s) body) as [sig|] eqn:Hsig;
    [|left; now rewrite (main_unencodable_secret (c :: s) link body)].
  right. exists (c :: s), body, sig. unfold reaches_transport. eauto 10.
Qed.

End Main.

(** The sample run reaches the transport step, whatever the remote end
    answers. *)
Lemma sample_reaches (answer : reply) :
  reaches_transport (sample_run answer) sample_secret sample_body sample_signature.
Proof.
  split; [reflexivity|]. split; [discriminate|].
  split; [exists sample_link; split; [reflexivity | vm_compute; reflexivity]|].
  vm_compute. reflexivity.
Qed.

Lemma sample_clock_valid (secret link : option pystr) (answer : reply) :
  valid_datetime (utcnow (sample_world secret link answer)).
Proof. unfold valid_datetime. cbn. lia. Qed.

(** The words before the receipt are ASCII. *)
Lemma accepts_receipt_line (h : error_handler) (shown : pystr) :
  forallb (stdout_accepts h) (lit "Submission receipt: " ++ shown)
  = forallb (stdout_accepts h) shown.
Proof. rewrite LimitFacts.accepts_app. reflexivity. Qed.

(** The sample bodies, parsed by an interpreter that has room for one
    nested call. *)
Lemma loads_receipt_response (lim : limits) :
  (1 <= recursion_depth lim)%nat ->
  Json.loads lim receipt_response
  = Json.Returns (Json.Dict [(lit "success", Json.Bool true);
                             (lit "receipt", Json.Str (lit "ABC123"))]).
Proof.
  destruct lim as [digits [|depth]]; cbn [recursion_depth]; [lia|].
  intros _. vm_compute. reflexivity.
Qed.

Lemma written_one (line : pystr) : written [line] = line ++ [10].
Proof. unfold written. cbn [flat_map]. apply app_nil_r. Qed.

Lemma count_line_feeds (s : pystr) :
  ~ In 10 s -> count_occ N.eq_dec (s ++ [10]) 10 = 1%nat.
Proof.
  intros H. rewrite count_occ_app, (proj1 (count_occ_not_In N.eq_dec s 10) H).
  reflexivity.
Qed.

Lemma iso8601_timestamp_spec_witness :
  let w := sample_world None None (URLFailure []) in
  iso8601_timestamp w = lit "2024-02-29T23:59:58.123000Z"
  /\ last (iso8601_timestamp w) = Some 90
  /\ ~ In 43 (iso8601_timestamp w).
Proof.
  pose proof (iso8601_timestamp_spec (sample_world None None (URLFailure []))
                (sample_clock_valid None None (URLFailure []))) as (Hshape & _ & Hlast & Hplus).
  split; [rewrite Hshape; vm_compute; reflexivity|].
  split; [exact Hlast | exact Hplus].
Defined.

(** C3, as stated, fails in the first millisecond of a second: at
    23:59:58.000999 the timestamp has no sub-second digits at all. *)
Lemma first_millisecond_has_no_fraction :
  iso8601_timestamp (world_at (Datetime 2024 2 29 23 59 58 999))
  = lit "2024-02-29T23:59:58Z".
Proof. vm_compute. reflexivity. Qed.

(** C4: when [B12_SIGNING_SECRET] is unset the script prints
    [Missing B12_SIGNING_SECRET] to standard error and exits with status 1,
    having written nothing else and sent no request; the outcome is the same
    in every such world, whatever the other variables, the clock and the
    remote end are (no payload is built, serialized or signed). *)
Theorem missing_secret_exits_first (py_repr : Json.value -> pystr) (w : World) :
  environ w !! "B12_SIGNING_SECRET" = None ->
  run_main py_repr w = (mkIo [] [lit "Missing B12_SIGNING_SECRET"] [], Exit 1)
  /\ sent (fst (run_main py_repr w)) = []
  /\ exit_status (snd (run_main py_repr w)) = 1%Z
  /\ (forall w', environ w' !! "B12_SIGNING_SECRET" = None ->
                 run_main py_repr w' = run_main py_repr w).
Proof.
  intros H. rewrite (main_no_secret py_repr w H).
  split; [reflexivity|]. split; [reflexivity|]. split; [reflexivity|].
  intros w' H'. apply main_no_secret, H'.
Qed.

Lemma missing_secret_exits_first_witness :
  let w := sample_world None (Some [0xDCFF]) (Response (utf8 receipt_response)) in
  run_main (fun _ => []) w = (mkIo [] [lit "Missing B12_SIGNING_SECRET"] [], Exit 1)
  /\ sent (fst (run_main (fun _ => []) w)) = []
  /\ exit_status (snd (run_main (fun _ => []) w)) = 1%Z
  /\ (forall w', environ w' !! "B12_SIGNING_SECRET" = None ->
                 run_main (fun _ => []) w' = run_main (fun _ => []) w).
Proof.
  apply (missing_secret_exits_first (fun _ => [])
           (sample_world None (Some [0xDCFF]) (Response (utf8 receipt_response)))).
  reflexivity.
Defined.

(** C5 (amended): when [B12_SIGNING_SECRET] is set to a non-empty string:
    if [B12_ACTION_RUN_LINK] is absent the script exits with status 1 after
    printing a message that names that variable; otherwise [build_payload]
    returns the six fields, each of [B12_NAME], [B12_EMAIL],
    [B12_RESUME_LINK] and [B12_REPOSITORY_LINK] that is unset replaced by
    its literal default, and the link taken verbatim. *)
Theorem build_payload_defaults (py_repr : Json.value -> pystr) (w : World) (secret : pystr) :
  environ w !! "B12_SIGNING_SECRET" = Some secret -> secret <> [] ->
  (environ w !! "B12_ACTION_RUN_LINK" = None ->
   run_main py_repr w
   = (mkIo [] [lit "Missing required environment variable: 'B12_ACTION_RUN_LINK'"] [],
      Exit 1))
  /\ (forall link s,
        environ w !! "B12_ACTION_RUN_LINK" = Some link ->
        let payload := payload_of w link in
        build_payload w s = (s, Ret payload)
        /\ (environ w !! "B12_NAME" = None ->
            Json.dict_get payload (lit "name") = Some (lit "Donovan Piper"))
        /\ (environ w !! "B12_EMAIL" = None ->
            Json.dict_get payload (lit "email") = Some (lit "do.piper.eng@outlook.com"))
        /\ (environ w !! "B12_RESUME_LINK" = None ->
            Json.dict_get payload (lit "resume_link")
            = Some (lit "https://donovan-piper.netlify.app/"))
        /\ (environ w !! "B12_REPOSITORY_LINK" = None ->
            Json.dict_get payload (lit "repository_link")
            = Some (lit "https://github.com/novancore"))
        /\ Json.dict_get payload (lit "action_run_link") = Some link
        /\ Json.dict_get payload (lit "timestamp") = Some (iso8601_timestamp w)
        /\ (forall body sig,
              Utf8.encode (serialize payload) = Some body ->
              compute_signature secret body = Some sig ->
              sent (fst (run_main py_repr w)) = [make_request body sig])).
Proof.
  intros Hs Hne. split; [intros Hl; now apply (main_no_link py_repr w secret)|].
  intros link s Hl payload.
  split; [now apply build_payload_set|].
  assert (Hget : forall name default,
             environ w !! name = None -> os_environ_get w name default = default).
  { intros name default H. unfold os_environ_get. now rewrite H. }
  split; [intros H; unfold payload, payload_of; rewrite (Hget _ _ H); reflexivity|].
  split; [intros H; unfold payload, payload_of; rewrite (Hget _ _ H); reflexivity|].
  split; [intros H; unfold payload, payload_of; rewrite (Hget _ _ H); reflexivity|].
  split; [intros H; unfold payload, payload_of; rewrite (Hget _ _ H); reflexivity|].
  split; [reflexivity|]. split; [reflexivity|].
  intros body sig He Hsig. apply (main_sent py_repr w secret).
  unfold reaches_transport. eauto 10.
Qed.

Lemma build_payload_defaults_witness :
  run_main (fun _ => []) (sample_world (Some sample_secret) None (URLFailure []))
  = (mkIo [] [lit "Missing required environment variable: 'B12_ACTION_RUN_LINK'"] [],
     Exit 1)
  /\ Json.dict_get (payload_of (sample_run (URLFailure [])) sample_link) (lit "name")
     = Some (lit "Donovan Piper").
Proof.
  split.
  - refine (proj1 (build_payload_defaults (fun _ => [])
                     (sample_world (Some sample_secret) None (URLFailure []))
                     sample_secret _ _) _).
    + reflexivity.
    + discriminate.
    + reflexivity.
  - refine (proj1 (proj2 (proj2 (build_payload_defaults (fun _ => [])
                                   (sample_run (URLFailure [])) sample_secret _ _)
                                sample_link (mkIo [] [] []) _)) _).
    + reflexivity.
    + discriminate.
    + reflexivity.
    + reflexivity.
Defined.

(** C5, as stated, fails: with [B12_SIGNING_SECRET] set (to the empty
    string) and [B12_ACTION_RUN_LINK] absent, the message names the secret,
    not the absent variable. *)
Lemma empty_secret_hides_missing_link :
  environ (sample_world (Some []) None (URLFailure [])) !! "B12_SIGNING_SECRET" = Some []
  /\ environ (sample_world (Some []) None (URLFailure [])) !! "B12_ACTION_RUN_LINK" = None
  /\ run_main (fun _ => []) (sample_world (Some []) None (URLFailure []))
     = (mkIo [] [lit "Missing B12_SIGNING_SECRET"] [], Exit 1).
Proof. repeat split. Qed.

(** C6 (amended): when the response body decodes and parses as a JSON
    object whose [success] is [true] and which has a [receipt] key, and
    standard output can encode the text of the receipt, the script prints
    [Submission receipt: <receipt>], nothing to standard error, and exits
    with status 0; when it cannot, [print] raises [UnicodeEncodeError] and
    nothing is printed.  For a receipt that is a string without surrogates
    the text written is that line and a line feed, the only one if the
    receipt holds none; for the body
    [{"success": true, "receipt": "ABC123"}] the line is
    [Submission receipt: ABC123]. *)
Theorem receipt_printed (py_repr : Json.value -> pystr) (w : World)
        (secret : pystr) (body : pybytes) (sig : pystr) (raw : pybytes) (text : pystr) :
  reaches_transport w secret body sig ->
  network w (make_request body sig) = Response raw ->
  Utf8.decode raw = Some text ->
  (forall d receipt,
      Json.loads (interpreter w) text = Json.Returns (Json.Dict d) ->
      Json.dict_get d (lit "success") = Some (Json.Bool true) ->
      Json.dict_get d (lit "receipt") = Some receipt ->
      if forallb (stdout_accepts (stdout_errors w)) (format_value py_repr receipt)
      then run_main py_repr w
           = (mkIo [lit "Submission receipt: " ++ format_value py_repr receipt] []
                   [make_request body sig], Exit 0)
      else run_main py_repr w
           = (mkIo [] [] [make_request body sig], Raise UnicodeEncodeError))
  /\ (forall d s,
        Json.loads (interpreter w) text = Json.Returns (Json.Dict d) ->
        Json.dict_get d (lit "success") = Some (Json.Bool true) ->
        Json.dict_get d (lit "receipt") = Some (Json.Str s) ->
        Forall (fun c => Utf8.scalar c = true) s ->
        run_main py_repr w
        = (mkIo [lit "Submission receipt: " ++ s] [] [make_request body sig], Exit 0)
        /\ written (stdout (fst (run_main py_repr w)))
           = lit "Submission receipt: " ++ s ++ [10]
        /\ (~ In 10 s ->
            count_occ N.eq_dec (written (stdout (fst (run_main py_repr w)))) 10 = 1%nat))
  /\ (text = receipt_response ->
      (1 <= recursion_depth (interpreter w))%nat ->
      run_main py_repr w
      = (mkIo [lit "Submission receipt: ABC123"] [] [make_request body sig], Exit 0)).
Proof.
  intros H Hn Hd.
  assert (Hstr : forall d s,
             Json.loads (interpreter w) text = Json.Returns (Json.Dict d) ->
             Json.dict_get d (lit "success") = Some (Json.Bool true) ->
             Json.dict_get d (lit "receipt") = Some (Json.Str s) ->
             Forall (fun c => Utf8.scalar c = true) s ->
             run_main py_repr w
             = (mkIo [lit "Submission receipt: " ++ s] [] [make_request body sig], Exit 0)).
  { intros d s Hj Hok Hr Hs.
    apply (main_response_receipt py_repr w secret body sig raw text d (Json.Str s));
      try assumption.
    rewrite accepts_receipt_line. now apply LimitFacts.accepts_scalar. }
  split; [|split].
  - intros d receipt Hj Hok Hr.
    destruct (forallb (stdout_accepts (stdout_errors w)) (format_value py_repr receipt))
      eqn:Hp.
    + apply (main_response_receipt py_repr w secret body sig raw text d receipt);
        try assumption; now rewrite accepts_receipt_line.
    + apply (main_response_unprintable py_repr w secret body sig raw text d receipt);
        try assumption; now rewrite accepts_receipt_line.
  - intros d s Hj Hok Hr Hs. rewrite (Hstr d s Hj Hok Hr Hs).
    cbn [fst stdout]. rewrite written_one, <- app_assoc.
    split; [reflexivity|]. split; [reflexivity|].
    intros Hlf. rewrite app_assoc. apply count_line_feeds.
    intros Hin. apply in_app_or in Hin. destruct Hin as [Hin|Hin]; [|contradiction].
    revert Hin. vm_compute. intuition discriminate.
  - intros -> Hdepth.
    apply (Hstr _ (lit "ABC123") (loads_receipt_response _ Hdepth));
      [reflexivity | reflexivity | repeat constructor].
Qed.

Lemma receipt_printed_witness :
  run_main (fun _ => []) (sample_run (Response (utf8 receipt_response)))
  = (mkIo [lit "Submission receipt: ABC123"] [] [sample_request], Exit 0).
Proof.
  refine (proj2 (proj2 (receipt_printed (fun _ => [])
                          (sample_run (Response (utf8 receipt_response)))
                          sample_secret sample_body sample_signature
                          (utf8 receipt_response) receipt_response
                          (sample_reaches _) _ _)) _ _);
    [reflexivity | reflexivity | reflexivity | cbn; lia].
Defined.

(** C6, as stated, fails: the body [{"success": true, "receipt": "\ud800"}]
    parses as a JSON object with [success] being [true] and a [receipt]
    key, but the receipt is a lone surrogate, which standard output cannot
    encode: [print] raises, nothing is printed and the script does not exit
    with status 0. *)
Lemma surrogate_receipt_raises :
  Json.loads default_limits surrogate_receipt_response
  = Json.Returns (Json.Dict [(lit "success", Json.Bool true);
                             (lit "receipt", Json.Str [0xD800])])
  /\ run_main (fun _ => []) (sample_run (Response (utf8 surrogate_receipt_response)))
     = (mkIo [] [] [sample_request], Raise UnicodeEncodeError).
Proof. split; vm_compute; reflexivity. Qed.

(** C7 (what the code does): when the response body decodes to [text]:
    if [text] is not JSON the script prints
    [Invalid JSON response from server] and [text] to standard error and
    exits with status 1; if it is a JSON object without [success] being
    [true] or without a [receipt] key, it prints
    [Submission failed or unexpected response] and [text] and exits with
    status 1; but if it is any JSON value other than an object, [parsed.get]
    raises [AttributeError], which nothing catches: the raw body is not
    printed.  Nor is it when [json.loads] raises something else than
    [JSONDecodeError]. *)
Theorem unexpected_response (py_repr : Json.value -> pystr) (w : World)
        (secret : pystr) (body : pybytes) (sig : pystr) (raw : pybytes) (text : pystr) :
  reaches_transport w secret body sig ->
  network w (make_request body sig) = Response raw ->
  Utf8.decode raw = Some text ->
  (Json.loads (interpreter w) text = Json.Raises JSONDecodeError ->
   run_main py_repr w
   = (mkIo [] [lit "Invalid JSON response from server"; text] [make_request body sig],
      Exit 1))
  /\ (forall d,
        Json.loads (interpreter w) text = Json.Returns (Json.Dict d) ->
        Json.dict_get d (lit "success") <> Some (Json.Bool true)
        \/ Json.dict_get d (lit "receipt") = None ->
        run_main py_repr w
        = (mkIo [] [lit "Submission failed or unexpected response"; text]
                [make_request body sig], Exit 1))
  /\ (forall v,
        Json.loads (interpreter w) text = Json.Returns v -> (forall d, v <> Json.Dict d) ->
        run_main py_repr w = (mkIo [] [] [make_request body sig], Raise AttributeError))
  /\ (forall e,
        Json.loads (interpreter w) text = Json.Raises e -> e <> JSONDecodeError ->
        run_main py_repr w = (mkIo [] [] [make_request body sig], Raise e)).
Proof.
  intros H Hn Hd. split; [|split; [|split]].
  - intros Hj. now apply (main_response_invalid_json py_repr w secret body sig raw text).
  - intros d Hj Hno.
    now apply (main_response_rejected py_repr w secret body sig raw text d).
  - intros v Hj Hv.
    now apply (main_response_not_object py_repr w secret body sig raw text v).
  - intros e Hj He.
    now apply (main_response_loads_raises py_repr w secret body sig raw text e).
Qed.

Lemma unexpected_response_witness :
  run_main (fun _ => []) (sample_run (Response (utf8 failure_response)))
  = (mkIo [] [lit "Submission failed or unexpected response"; failure_response]
          [sample_request], Exit 1)
  /\ run_main (fun _ => []) (sample_run (Response (lit_bytes "not-json")))
     = (mkIo [] [lit "Invalid JSON response from server"; lit "not-json"]
             [sample_request], Exit 1).
Proof.
  split.
  - refine (proj1 (proj2 (unexpected_response (fun _ => [])
                            (sample_run (Response (utf8 failure_response)))
                            sample_secret sample_body sample_signature
                            (utf8 failure_response) failure_response
                            (sample_reaches _) _ _))
                  [(lit "success", Json.Bool false)] _ _);
      [reflexivity | reflexivity | reflexivity | right; reflexivity].
  - refine (proj1 (unexpected_response (fun _ => [])
                     (sample_run (Response (lit_bytes "not-json")))
                     sample_secret sample_body sample_signature
                     (lit_bytes "not-json") (lit "not-json")
                     (sample_reaches _) _ _) _); reflexivity.
Defined.

(** C7, as stated, fails: the response body [[]] parses as JSON and is not
    an object; the script ends with an uncaught [AttributeError], having
    printed nothing (the interpreter then prints a traceback, not the
    body). *)
Lemma array_response_raises :
  run_main (fun _ => []) (sample_run (Response (lit_bytes "[]")))
  = (mkIo [] [] [sample_request], Raise AttributeError).
Proof. vm_compute. reflexivity. Qed.

(** C8 (amended): when [urlopen] raises [HTTPError], the script prints
    [HTTP error: <code> <reason>] to standard error, then the error's body
    if it can be read and is UTF-8 (a body that is not is dropped), and
    exits with status 1; when
    [urlopen] raises [URLError] it prints [Request failed: ...] and exits
    with status 1; in both cases, as in every run that reaches the
    transport step, [urlopen] has been called exactly once. *)
Theorem http_error_reported (py_repr : Json.value -> pystr) (w : World)
        (secret : pystr) (body : pybytes) (sig : pystr) :
  reaches_transport w secret body sig ->
  (forall code reason ebody,
      network w (make_request body sig) = HTTPFailure code reason ebody ->
      run_main py_repr w
      = (mkIo []
              ((lit "HTTP error: " ++ Text.dec code ++ lit " " ++ reason)
               :: match ebody with
                  | Some b => match Utf8.decode b with Some t => [t] | None => [] end
                  | None => []
                  end)
              [make_request body sig], Exit 1))
  /\ (forall reason,
        network w (make_request body sig) = URLFailure reason ->
        run_main py_repr w
        = (mkIo [] [lit "Request failed: <urlopen error " ++ reason ++ lit ">"]
                [make_request body sig], Exit 1))
  /\ length (sent (fst (run_main py_repr w))) = 1%nat.
Proof.
  intros H. split; [|split].
  - intros code reason ebody Hn.
    now apply (main_http_error py_repr w secret body sig code reason ebody).
  - intros reason Hn. now apply (main_url_error py_repr w secret body sig reason).
  - now rewrite (main_sent py_repr w secret body sig H).
Qed.

Lemma http_error_reported_witness :
  run_main (fun _ => [])
    (sample_run (HTTPFailure 500 (lit "Internal Server Error") (Some (lit_bytes "oops"))))
  = (mkIo [] [lit "HTTP error: 500 Internal Server Error"; lit "oops"] [sample_request],
     Exit 1).
Proof.
  refine (proj1 (http_error_reported (fun _ => [])
                   (sample_run (HTTPFailure 500 (lit "Internal Server Error")
                                            (Some (lit_bytes "oops"))))
                   sample_secret sample_body sample_signature (sample_reaches _))
                500 (lit "Internal Server Error") (Some (lit_bytes "oops")) _).
  reflexivity.
Defined.

(** C8, as stated, fails: an [HTTPError] whose body is the byte 0xFF has a
    body, but it is not UTF-8: the [except Exception] clause swallows the
    [UnicodeDecodeError] and the body is not shown. *)
Lemma error_body_dropped :
  run_main (fun _ => [])
    (sample_run (HTTPFailure 502 (lit "Bad Gateway") (Some [xff])))
  = (mkIo [] [lit "HTTP error: 502 Bad Gateway"] [sample_request], Exit 1).
Proof. vm_compute. reflexivity. Qed.

(** C9: a run that reaches the transport step sends exactly one request: a
    POST to [https://b12.io/apply/submission] with the headers
    [Content-Type: application/json; charset=utf-8] and
    [X-Signature-256: <signature>], whose body is the UTF-8 encoding of the
    serialized payload, the very bytes the signature was computed over; and
    a run sends nothing unless it reaches that step. *)
Theorem single_signed_post (py_repr : Json.value -> pystr) (w : World)
        (secret : pystr) (body : pybytes) (sig : pystr) :
  reaches_transport w secret body sig ->
  sent (fst (run_main py_repr w))
  = [ {| url := lit "https://b12.io/apply/submission";
         data := body;
         method := lit "POST";
         headers := [(lit "Content-Type", lit "application/json; charset=utf-8");
                     (lit "X-Signature-256", sig)] |} ]
  /\ compute_signature secret body = Some sig
  /\ (exists link,
        environ w !! "B12_ACTION_RUN_LINK" = Some link
        /\ Utf8.encode (serialize (payload_of w link)) = Some body)
  /\ (forall key, Utf8.encode secret = Some key ->
                  sig = lit "sha256=" ++ Hmac.hexdigest key body)
  /\ (forall w' req,
        In req (sent (fst (run_main py_repr w'))) ->
        exists secret' body' sig',
          reaches_transport w' secret' body' sig' /\ req = make_request body' sig').
Proof.
  intros H. split; [exact (main_sent py_repr w secret body sig H)|].
  pose proof H as (Hs & Hne & Hbody & Hsig).
  split; [exact Hsig|]. split; [exact Hbody|]. split.
  - intros key Hkey. unfold compute_signature in Hsig. rewrite Hkey in Hsig. congruence.
  - intros w' req Hin.
    destruct (main_reaches_or_not py_repr w') as [Hnone | (s' & b' & g' & H')].
    + rewrite Hnone in Hin. destruct Hin.
    + exists s', b', g'. split; [exact H'|].
      rewrite (main_sent py_repr w' s' b' g' H') in Hin.
      destruct Hin as [<- | []]. reflexivity.
Qed.

Lemma single_signed_post_witness :
  sent (fst (run_main (fun _ => []) (sample_run (Response (utf8 receipt_response)))))
  = [ {| url := lit "https://b12.io/apply/submission";
         data := sample_body;
         method := lit "POST";
         headers := [(lit "Content-Type", lit "application/json; charset=utf-8");
                     (lit "X-Signature-256", sample_signature)] |} ].
Proof.
  exact (proj1 (single_signed_post (fun _ => [])
                  (sample_run (Response (utf8 receipt_response)))
                  sample_secret sample_body sample_signature (sample_reaches _))).
Defined.

(** C10: the two required variables are treated differently when empty.
    With [B12_SIGNING_SECRET] set to the empty string the script prints
    [Missing B12_SIGNING_SECRET] and exits with status 1.  With a non-empty
    secret and [B12_ACTION_RUN_LINK] set to the empty string,
    [build_payload] succeeds, the payload and its serialization hold the
    empty link, and the run goes on to send the request. *)
Theorem empty_secret_and_empty_link (py_repr : Json.value -> pystr) (w : World) :
  (environ w !! "B12_SIGNING_SECRET" = Some [] ->
   run_main py_repr w = (mkIo [] [lit "Missing B12_SIGNING_SECRET"] [], Exit 1))
  /\ (forall secret,
        environ w !! "B12_SIGNING_SECRET" = Some secret -> secret <> [] ->
        environ w !! "B12_ACTION_RUN_LINK" = Some [] ->
        (forall s, build_payload w s = (s, Ret (payload_of w [])))
        /\ Json.dict_get (payload_of w []) (lit "action_run_link") = Some []
        /\ (exists rest,
              serialize (payload_of w [])
              = lit "{" ++ jq "action_run_link" ++ lit ":" ++ [34; 34] ++ rest)
        /\ (forall body sig,
              Utf8.encode (serialize (payload_of w [])) = Some body ->
              compute_signature secret body = Some sig ->
              sent (fst (run_main py_repr w)) = [make_request body sig])).
Proof.
  split; [apply main_empty_secret|].
  intros secret Hs Hne Hl.
  split; [intros s; now apply build_payload_set|].
  split; [reflexivity|].
  split.
  - eexists. unfold payload_of. rewrite serialize_cons. reflexivity.
  - intros body sig He Hsig. apply (main_sent py_repr w secret).
    unfold reaches_transport. eauto 10.
Qed.

Lemma empty_secret_and_empty_link_witness :
  run_main (fun _ => []) (sample_world (Some []) (Some sample_link) (URLFailure []))
  = (mkIo [] [lit "Missing B12_SIGNING_SECRET"] [], Exit 1)
  /\ Json.dict_get
       (payload_of (sample_world (Some sample_secret) (Some []) (URLFailure [])) [])
       (lit "action_run_link") = Some [].
Proof.
  split.
  - refine (proj1 (empty_secret_and_empty_link (fun _ => [])
                     (sample_world (Some []) (Some sample_link) (URLFailure []))) _).
    reflexivity.
  - refine (proj1 (proj2 (proj2 (empty_secret_and_empty_link (fun _ => [])
                     (sample_world (Some sample_secret) (Some []) (URLFailure [])))
                     sample_secret _ _ _))).
    + reflexivity.
    + discriminate.
    + reflexivity.
Defined.

(** ** The JSON scanner always answers *)

Module JsonTotal.
Import Json JsonFacts2.
#[local] Open Scope nat_scope.

Lemma parse_elements_eq (lim : limits) (f depth : nat) (acc : list value) (s : pystr) :
parse_elements lim (S f) depth acc s =
  match scan_once lim f depth s with
  | Err => Err
  | Stop e => Stop e
  | OutOfFuel => OutOfFuel
  | Ok v r =>
      let acc' := acc ++ [v] in
      match skip_ws r with
      | c :: r1 =>
          if (c =? 93)%N then Ok (List acc') r1
          else if negb (c =? 44)%N then Err
          else parse_elements lim f depth acc' (skip_ws r1)
      | [] => Err
      end
  end.
Proof. reflexivity. Qed.

(** Take a scanner equation apart, one test at a time. *)
Ltac chew H :=
repeat match type of H with
  | (if ?b then _ else _) = _ => destruct b
  | (let _ := _ in _) = _ => cbv zeta in H
  | (let (_, _) := ?x in _) = _ =>
      first [ is_var x; destruct x | let E := fresh "E" in destruct x eqn:E ]
  | match ?x with _ => _ end = _ =>
      first [ is_var x; destruct x | let E := fresh "E" in destruct x eqn:E ]
  end; try discriminate.

Lemma skip_ws_length (s : pystr) : length (skip_ws s) <= length s.
Proof.
induction s as [|c r IH]; [reflexivity|].
cbn [skip_ws]. destruct (is_ws c); cbn [length]; lia.
Qed.

Lemma skip_ws_cons (s r : pystr) (c : N) : skip_ws s = c :: r -> length r < length s.
Proof. intros H. pose proof (skip_ws_length s) as L. rewrite H in L. exact L. Qed.

Lemma push_Some (c : N) (x : option (pystr * pystr)) (k rest : pystr) :
push c x = Some (k, rest) -> exists k', x = Some (k', rest).
Proof. destruct x as [[k' r']|]; cbn; intros H; inversion H; eauto. Qed.

(** [scanstring] consumes at least the closing quote. *)
Lemma scanstring_length (n : nat) (s k r : pystr) :
length s <= n -> scanstring s = Some (k, r) -> length r < length s.
Proof.
revert s k r. induction n as [|n IH]; intros s k r Hlen H.
- destruct s; [discriminate | cbn in Hlen; lia].
- destruct s as [|c s1]; [discriminate|]. cbn [scanstring] in H.
  chew H.
  all: cbn [length] in *.
  all: try (injection H as <- <-; cbn [length]; lia).
  all: apply push_Some in H; destruct H as [k' H]; apply IH in H;
    cbn [length] in *; lia.
Qed.

Lemma scanstring_rest (s k r : pystr) : scanstring s = Some (k, r) -> length r < length s.
Proof. apply (scanstring_length (length s)). reflexivity. Qed.

Lemma strip_prefix_length (w s r : pystr) :
strip_prefix w s = Some r -> length s = length w + length r.
Proof.
revert s. induction w as [|x w IH]; intros s H; cbn [strip_prefix] in H.
- injection H as ->. reflexivity.
- destruct s as [|y s]; [discriminate|].
  destruct (x =? y)%N; [|discriminate]. apply IH in H. cbn [length]. lia.
Qed.

Lemma span_digits_length (s d r : pystr) : span_digits s = (d, r) -> length r <= length s.
Proof.
revert d r. induction s as [|c s IH]; intros d r H; cbn [span_digits] in H.
- injection H as <- <-. reflexivity.
- destruct (is_digit c).
  + destruct (span_digits s) as [d' r'] eqn:E. injection H as <- <-.
    specialize (IH _ _ eq_refl). cbn [length]. lia.
  + injection H as <- <-. reflexivity.
Qed.

Lemma match_integer_length (s i r : pystr) :
match_integer s = Some (i, r) -> length r < length s.
Proof.
unfold match_integer. intros H.
destruct s as [|c s]; [discriminate|].
destruct (c =? 45)%N.
- destruct s as [|c' s]; [discriminate|].
  destruct (c' =? 48)%N; [injection H as <- <-; cbn [length]; lia|].
  destruct (is_digit c'); [|discriminate].
  destruct (span_digits s) as [d r'] eqn:E. injection H as <- <-.
  apply span_digits_length in E. cbn [length]. lia.
- destruct (c =? 48)%N; [injection H as <- <-; cbn [length]; lia|].
  destruct (is_digit c); [|discriminate].
  destruct (span_digits s) as [d r'] eqn:E. injection H as <- <-.
  apply span_digits_length in E. cbn [length]. lia.
Qed.

Lemma match_frac_length (s f r : pystr) : match_frac s = (f, r) -> length r <= length s.
Proof.
unfold match_frac. intros H.
destruct s as [|c s]; [injection H as <- <-; reflexivity|].
destruct (c =? 46)%N; [|injection H as <- <-; reflexivity].
destruct (span_digits s) as [d r'] eqn:E. apply span_digits_length in E.
destruct d; injection H as <- <-; cbn [length]; lia.
Qed.

Lemma match_exp_length (s e r : pystr) : match_exp s = (e, r) -> length r <= length s.
Proof.
unfold match_exp. intros H.
destruct s as [|c s]; [injection H as <- <-; reflexivity|].
destruct ((c =? 101) || (c =? 69))%N; [|injection H as <- <-; reflexivity].
destruct s as [|x s'].
- cbn in H. injection H as <- <-. reflexivity.
- destruct ((x =? 45) || (x =? 43))%N.
  + destruct (span_digits s') as [d r'] eqn:E. apply span_digits_length in E.
    destruct d; injection H as <- <-; cbn [length]; lia.
  + destruct (span_digits (x :: s')) as [d r'] eqn:E. apply span_digits_length in E.
    destruct d; injection H as <- <-; cbn [length] in *; lia.
Qed.

Lemma scan_number_length (lim : limits) (s : pystr) (v : value) (r : pystr) :
scan_number lim s = Ok v r -> length r < length s.
Proof.
unfold scan_number. intros H.
destruct (match_integer s) as [[i r0]|] eqn:Ei; [|discriminate].
destruct (match_frac r0) as [f r1] eqn:Ef.
destruct (match_exp r1) as [e r2] eqn:Ee.
apply match_integer_length in Ei. apply match_frac_length in Ef.
apply match_exp_length in Ee.
destruct f, e; try destruct (digits_exceed _ _); try discriminate;
  injection H as <- <-; lia.
Qed.

Lemma scan_number_fuel (lim : limits) (s : pystr) : scan_number lim s <> OutOfFuel.
Proof.
unfold scan_number.
destruct (match_integer s) as [[i r0]|]; [|discriminate].
destruct (match_frac r0) as [f r1]. destruct (match_exp r1) as [e r2].
destruct f, e; try destruct (digits_exceed _ _); discriminate.
Qed.

Lemma scan_constant_length (lim : limits) (s : pystr) (v : value) (r : pystr) :
scan_constant lim s = Ok v r -> length r < length s.
Proof.
unfold scan_constant. intros H.
repeat match type of H with
  | match strip_prefix ?w s with _ => _ end = _ =>
      let E := fresh "E" in
      destruct (strip_prefix w s) eqn:E;
      [apply strip_prefix_length in E; cbn in E; injection H as <- <-; lia|]
  | match scan_number lim s with _ => _ end = _ =>
      let E := fresh "E" in
      destruct (scan_number lim s) as [v' r'| | |] eqn:E;
      [apply scan_number_length in E; injection H as <- <-; exact E
      | | discriminate | discriminate]
  end.
discriminate.
Qed.

Lemma scan_constant_fuel (lim : limits) (s : pystr) : scan_constant lim s <> OutOfFuel.
Proof.
unfold scan_constant. pose proof (scan_number_fuel lim s) as F.
repeat match goal with
  | |- match strip_prefix ?w s with _ => _ end <> _ =>
      destruct (strip_prefix w s); [discriminate|]
  | |- match scan_number lim s with _ => _ end <> _ =>
      destruct (scan_number lim s); [discriminate | | discriminate | now destruct F]
  end.
discriminate.
Qed.

(** Turn what is known of the scanners' results into facts on lengths. *)
Ltac lengths :=
repeat match goal with
  | E : scanstring _ = Some _ |- _ => apply scanstring_rest in E
  | E : skip_ws _ = _ :: _ |- _ => apply skip_ws_cons in E
  end;
repeat match goal with
  | |- context [skip_ws ?s] =>
      lazymatch goal with
      | _ : length (skip_ws s) <= length s |- _ => fail
      | _ => pose proof (skip_ws_length s)
      end
  | _ : context [skip_ws ?s] |- _ =>
      lazymatch goal with
      | _ : length (skip_ws s) <= length s |- _ => fail
      | _ => pose proof (skip_ws_length s)
      end
  end;
cbn [length] in *.

(** What a scanner leaves unread is shorter than what it was given. *)
Lemma scan_rest (lim : limits) (f : nat) :
(forall depth s v r, scan_once lim f depth s = Ok v r -> length r < length s) /\
(forall depth acc s v r,
    parse_members lim f depth acc s = Ok v r -> length r < length s) /\
(forall depth acc s v r,
    parse_elements lim f depth acc s = Ok v r -> length r < length s).
Proof.
induction f as [|f (IHs & IHm & IHe)]; [repeat split; discriminate|].
split; [|split].
- intros depth s v r H. rewrite scan_once_eq in H. chew H.
  all: try (injection H as <- <-).
  all: try apply IHm in H; try apply IHe in H.
  all: try apply scan_constant_length in H.
  all: lengths; lia.
- intros depth acc s v r H. rewrite parse_members_eq in H. chew H.
  all: try (injection H as <- <-).
  all: try apply IHm in H.
  all: repeat match goal with
         | E : scan_once _ _ _ _ = Ok _ _ |- _ => apply IHs in E
         end.
  all: lengths; lia.
- intros depth acc s v r H. rewrite parse_elements_eq in H. chew H.
  all: try (injection H as <- <-).
  all: try apply IHe in H.
  all: repeat match goal with
         | E : scan_once _ _ _ _ = Ok _ _ |- _ => apply IHs in E
         end.
  all: lengths; lia.
Qed.

(** Two units of budget for every character still to be read are enough. *)
Lemma scan_fuel (lim : limits) (f : nat) :
(forall depth s, 2 * length s + 1 <= f -> scan_once lim f depth s <> OutOfFuel) /\
(forall depth acc s,
    2 * length s + 1 <= f -> parse_members lim f depth acc s <> OutOfFuel) /\
(forall depth acc s,
    2 * length s + 2 <= f -> parse_elements lim f depth acc s <> OutOfFuel).
Proof.
induction f as [|f (IHs & IHm & IHe)]; [repeat split; intros; lia|].
pose proof (scan_rest lim f) as (Rs & Rm & Re).
split; [|split].
- intros depth s Hf H. rewrite scan_once_eq in H. chew H.
  all: try (now apply scan_constant_fuel in H).
  all: first [ apply IHm in H | apply IHe in H ]; [exact H|].
  all: lengths; lia.
- intros depth acc s Hf H. rewrite parse_members_eq in H. chew H.
  all: repeat match goal with
         | E : scan_once _ _ _ _ = Ok _ _ |- _ => apply Rs in E
         end.
  all: try (apply IHm in H; [exact H|]; lengths; lia).
  all: match goal with
       | E : scan_once _ _ _ _ = OutOfFuel |- _ => apply IHs in E; [exact E|]
       end.
  all: lengths; lia.
- intros depth acc s Hf H. rewrite parse_elements_eq in H. chew H.
  all: repeat match goal with
         | E : scan_once _ _ _ _ = Ok _ _ |- _ => apply Rs in E
         end.
  all: try (apply IHe in H; [exact H|]; lengths; lia).
  all: match goal with
       | E : scan_once _ _ _ _ = OutOfFuel |- _ => apply IHs in E; [exact E|]
       end.
  all: lengths; lia.
Qed.

Lemma decode_fuel (lim : limits) (s : pystr) :
decode lim (1 + 2 * length s) s <> OutOfFuel.
Proof.
unfold decode. intros H.
destruct (scan_once lim (1 + 2 * length s) (recursion_depth lim) (skip_ws s))
  as [v r| | |] eqn:E.
- destruct (skip_ws r); discriminate.
- discriminate.
- discriminate.
- apply (proj1 (scan_fuel lim _)) in E; [exact E|].
  pose proof (skip_ws_length s). lia.
Qed.

(** The scanners raise nothing but [JSONDecodeError], [ValueError] and
  [RecursionError]. *)
Lemma scan_number_stop (lim : limits) (s : pystr) (e : exn) :
scan_number lim s = Stop e -> e = ValueError.
Proof.
unfold scan_number. intros H.
destruct (match_integer s) as [[i r0]|]; [|discriminate].
destruct (match_frac r0) as [f r1]. destruct (match_exp r1) as [x r2].
destruct f, x; try destruct (digits_exceed _ _); try discriminate.
now injection H as <-.
Qed.

Lemma scan_constant_stop (lim : limits) (s : pystr) (e : exn) :
scan_constant lim s = Stop e -> e = ValueError.
Proof.
unfold scan_constant. intros H.
repeat match type of H with
  | match strip_prefix ?w s with _ => _ end = _ =>
      destruct (strip_prefix w s); [discriminate|]
  | match scan_number lim s with _ => _ end = _ =>
      let E := fresh "E" in
      destruct (scan_number lim s) eqn:E;
      [discriminate | | injection H as <-; now apply scan_number_stop in E
      | discriminate]
  end.
discriminate.
Qed.

Lemma scan_stop (lim : limits) (f : nat) :
(forall depth s e,
    scan_once lim f depth s = Stop e -> e = ValueError \/ e = RecursionError) /\
(forall depth acc s e,
    parse_members lim f depth acc s = Stop e -> e = ValueError \/ e = RecursionError) /\
(forall depth acc s e,
    parse_elements lim f depth acc s = Stop e -> e = ValueError \/ e = RecursionError).
Proof.
induction f as [|f (IHs & IHm & IHe)]; [repeat split; discriminate|].
split; [|split].
- intros depth s e H. rewrite scan_once_eq in H. chew H.
  all: try (injection H as <-; now right).
  all: try (now apply IHm in H).
  all: try (now apply IHe in H).
  all: apply scan_constant_stop in H; now left.
- intros depth acc s e H. rewrite parse_members_eq in H. chew H.
  all: try (now apply IHm in H).
  all: injection H as <-.
  all: match goal with
       | E : scan_once _ _ _ _ = Stop _ |- _ => now apply IHs in E
       end.
- intros depth acc s e H. rewrite parse_elements_eq in H. chew H.
  all: try (now apply IHe in H).
  all: injection H as <-.
  all: match goal with
       | E : scan_once _ _ _ _ = Stop _ |- _ => now apply IHs in E
       end.
Qed.

Lemma loads_raises (lim : limits) (s : pystr) (e : exn) :
loads lim s = Raises e ->
e = JSONDecodeError \/ e = ValueError \/ e = RecursionError.
Proof.
unfold loads. pose proof (decode_fuel lim s) as F. revert F. unfold decode.
destruct (scan_once lim (1 + 2 * length s) (recursion_depth lim) (skip_ws s))
  as [v r| |x|] eqn:E; intros F H.
- destruct (skip_ws r); [discriminate|]. injection H as <-. now left.
- injection H as <-. now left.
- injection H as <-. right. now apply (proj1 (scan_stop lim _)) in E.
- now destruct F.
Qed.

End JsonTotal.

(** ** Every run of the script *)

(** The runs of [main], case by case: the three ways to stop before the
    transport step, and the nine ways to end after it. *)
Lemma main_cases (py_repr : Json.value -> pystr) (w : World) :
  run_main py_repr w = (mkIo [] [lit "Missing B12_SIGNING_SECRET"] [], Exit 1)
  \/ run_main py_repr w
     = (mkIo [] [lit "Missing required environment variable: 'B12_ACTION_RUN_LINK'"] [],
        Exit 1)
  \/ run_main py_repr w = (mkIo [] [] [], Raise UnicodeEncodeError)
  \/ exists secret body sig,
      reaches_transport w secret body sig
      /\ ((exists raw,
             network w (make_request body sig) = Response raw
             /\ Utf8.decode raw = None
             /\ run_main py_repr w
                = (mkIo [] [] [make_request body sig], Raise UnicodeDecodeError))
          \/ (exists raw text,
                network w (make_request body sig) = Response raw
                /\ Utf8.decode raw = Some text
                /\ Json.loads (interpreter w) text = Json.Raises JSONDecodeError
                /\ run_main py_repr w
                   = (mkIo [] [lit "Invalid JSON response from server"; text]
                           [make_request body sig], Exit 1))
          \/ (exists raw text e,
                network w (make_request body sig) = Response raw
                /\ Utf8.decode raw = Some text
                /\ Json.loads (interpreter w) text = Json.Raises e
                /\ (e = ValueError \/ e = RecursionError)
                /\ run_main py_repr w = (mkIo [] [] [make_request body sig], Raise e))
          \/ (exists raw text v,
                network w (make_request body sig) = Response raw
                /\ Utf8.decode raw = Some text
                /\ Json.loads (interpreter w) text = Json.Returns v
                /\ (forall d, v <> Json.Dict d)
                /\ run_main py_repr w
                   = (mkIo [] [] [make_request body sig], Raise AttributeError))
          \/ (exists raw text d,
                network w (make_request body sig) = Response raw
                /\ Utf8.decode raw = Some text
                /\ Json.loads (interpreter w) text = Json.Returns (Json.Dict d)
                /\ (Json.dict_get d (lit "success") <> Some (Json.Bool true)
                    \/ Json.dict_get d (lit "receipt") = None)
                /\ run_main py_repr w
                   = (mkIo [] [lit "Submission failed or unexpected response"; text]
                           [make_request body sig], Exit 1))
          \/ (exists raw text d receipt,
                network w (make_request body sig) = Response raw
                /\ Utf8.decode raw = Some text
                /\ Json.loads (interpreter w) text = Json.Returns (Json.Dict d)
                /\ Json.dict_get d (lit "success") = Some (Json.Bool true)
                /\ Json.dict_get d (lit "receipt") = Some receipt
                /\ forallb (stdout_accepts (stdout_errors w))
                           (format_value py_repr receipt) = false
                /\ run_main py_repr w
                   = (mkIo [] [] [make_request body sig], Raise UnicodeEncodeError))
          \/ (exists raw text d receipt,
                network w (make_request body sig) = Response raw
                /\ Utf8.decode raw = Some text
                /\ Json.loads (interpreter w) text = Json.Returns (Json.Dict d)
                /\ Json.dict_get d (lit "success") = Some (Json.Bool true)
                /\ Json.dict_get d (lit "receipt") = Some receipt
                /\ forallb (stdout_accepts (stdout_errors w))
                           (format_value py_repr receipt) = true
                /\ run_main py_repr w
                   = (mkIo [lit "Submission receipt: " ++ format_value py_repr receipt] []
                           [make_request body sig], Exit 0))
          \/ (exists code reason ebody,
                network w (make_request body sig) = HTTPFailure code reason ebody
                /\ run_main py_repr w
                   = (mkIo []
                           ((lit "HTTP error: " ++ Text.dec code ++ lit " " ++ reason)
                            :: match ebody with
                               | Some b =>
                                   match Utf8.decode b with Some t => [t] | None => [] end
                               | None => []
                               end)
                           [make_request body sig], Exit 1))
          \/ (exists reason,
                network w (make_request body sig) = URLFailure reason
                /\ run_main py_repr w
                   = (mkIo [] [lit "Request failed: <urlopen error " ++ reason ++ lit ">"]
                           [make_request body sig], Exit 1))).
Proof.
  destruct (environ w !! "B12_SIGNING_SECRET") as [secret|] eqn:Hs;
    [|left; now apply main_no_secret].
  destruct secret as [|c s]; [left; now apply main_empty_secret|].
  assert (Hne : c :: s <> []) by discriminate.
  right.
  destruct (environ w !! "B12_ACTION_RUN_LINK") as [link|] eqn:Hl;
    [|left; now apply (main_no_link py_repr w (c :: s))].
  right.
  destruct (Utf8.encode (serialize (payload_of w link))) as [body|] eqn:He;
    [|left; now apply (main_unencodable_body py_repr w (c :: s) link)].
  destruct (compute_signature (c :: s) body) as [sig|] eqn:Hsig;
    [|left; now apply (main_unencodable_secret py_repr w (c :: s) link body)].
  right. exists (c :: s), body, sig.
  assert (H : reaches_transport w (c :: s) body sig)
    by (unfold reaches_transport; eauto 10).
  split; [exact H|].
  destruct (network w (make_request body sig)) as [raw|code reason eb|reason] eqn:Hn.
  - destruct (Utf8.decode raw) as [text|] eqn:Hd.
    2:{ left. exists raw. split; [reflexivity|]. split; [exact Hd|].
        now apply (main_response_undecodable py_repr w (c :: s) body sig raw). }
    right.
    destruct (Json.loads (interpreter w) text) as [v|e] eqn:Hj.
    2:{ destruct (JsonTotal.loads_raises _ _ _ Hj) as [-> | He'].
        - left. exists raw, text. split; [reflexivity|]. split; [exact Hd|].
          split; [exact Hj|].
          now apply (main_response_invalid_json py_repr w (c :: s) body sig raw).
        - right. left. exists raw, text, e. split; [reflexivity|]. split; [exact Hd|].
          split; [exact Hj|]. split; [exact He'|].
          apply (main_response_loads_raises py_repr w (c :: s) body sig raw text e);
            try assumption. destruct He' as [-> | ->]; discriminate. }
    do 2 right.
    assert (Hobj : (exists d, v = Json.Dict d) \/ (forall d, v <> Json.Dict d)).
    { destruct v; try (right; discriminate). left. eauto. }
    destruct Hobj as [[d ->] | Hobj].
    2:{ left. exists raw, text, v. split; [reflexivity|]. split; [exact Hd|].
        split; [exact Hj|]. split; [exact Hobj|].
        now apply (main_response_not_object py_repr w (c :: s) body sig raw text v). }
    right.
    assert (Hok : (Json.dict_get d (lit "success") = Some (Json.Bool true)
                   /\ exists receipt, Json.dict_get d (lit "receipt") = Some receipt)
                  \/ (Json.dict_get d (lit "success") <> Some (Json.Bool true)
                      \/ Json.dict_get d (lit "receipt") = None)).
    { destruct (Json.dict_get d (lit "success")) as [[|[|]| | | | |]|];
        try (right; left; discriminate).
      destruct (Json.dict_get d (lit "receipt")) as [receipt|]; [|right; now right].
      left. eauto. }
    destruct Hok as [(Hok & receipt & Hr) | Hno].
    2:{ left. exists raw, text, d. repeat (split; [assumption || reflexivity|]).
        now apply (main_response_rejected py_repr w (c :: s) body sig raw text d). }
    right.
    destruct (forallb (stdout_accepts (stdout_errors w)) (format_value py_repr receipt))
      eqn:Hp.
    + right. left. exists raw, text, d, receipt.
      repeat (split; [assumption || reflexivity|]).
      apply (main_response_receipt py_repr w (c :: s) body sig raw text d receipt);
        try assumption; now rewrite accepts_receipt_line.
    + left. exists raw, text, d, receipt.
      repeat (split; [assumption || reflexivity|]).
      apply (main_response_unprintable py_repr w (c :: s) body sig raw text d receipt);
        try assumption; now rewrite accepts_receipt_line.
  - do 7 right. left. exists code, reason, eb. split; [reflexivity|].
    now apply (main_http_error py_repr w (c :: s) body sig code reason eb).
  - do 8 right. exists reason. split; [reflexivity|].
    now apply (main_url_error py_repr w (c :: s) body sig reason).
Qed.

(** Take [main_cases] apart, rewriting the run by its outcome. *)
Ltac by_cases py_repr w :=
  let H := fresh "Hrun" in
  destruct (main_cases py_repr w)
    as [H | [H | [H | (secret & body & sig & Hreach &
         [ (raw & Hn & Hd & H)
         | [ (raw & text & Hn & Hd & Hj & H)
         | [ (raw & text & e & Hn & Hd & Hj & He & H)
         | [ (raw & text & v & Hn & Hd & Hj & Hv & H)
         | [ (raw & text & d & Hn & Hd & Hj & Hno & H)
         | [ (raw & text & d & receipt & Hn & Hd & Hj & Hok & Hr & Hp & H)
         | [ (raw & text & d & receipt & Hn & Hd & Hj & Hok & Hr & Hp & H)
         | [ (code & reason & ebody & Hn & H)
         | (reason & Hn & H) ]]]]]]]])]]];
  rewrite H.

(** X1: in every run where [urlopen] returns a response or raises
    [HTTPError] or [URLError], the script ends in one of three ways:
    [sys.exit(0)] after the one [print] of [Submission receipt: ...] and
    nothing on standard error; [sys.exit(1)] after one or two [print]s to
    standard error and nothing on standard output; or an uncaught
    [UnicodeEncodeError], [UnicodeDecodeError], [AttributeError],
    [ValueError] or [RecursionError] with nothing printed.  [main] never
    returns normally and never exits with another status. *)
Theorem main_outcomes (py_repr : Json.value -> pystr) (w : World) :
  (snd (run_main py_repr w) = Exit 0
   /\ stderr (fst (run_main py_repr w)) = []
   /\ exists receipt,
       stdout (fst (run_main py_repr w)) = [lit "Submission receipt: " ++ receipt])
  \/ (snd (run_main py_repr w) = Exit 1
      /\ stdout (fst (run_main py_repr w)) = []
      /\ stderr (fst (run_main py_repr w)) <> []
      /\ (length (stderr (fst (run_main py_repr w))) <= 2)%nat)
  \/ (exists e,
        snd (run_main py_repr w) = Raise e
        /\ (e = UnicodeEncodeError \/ e = UnicodeDecodeError \/ e = AttributeError
            \/ e = ValueError \/ e = RecursionError)
        /\ stdout (fst (run_main py_repr w)) = []
        /\ stderr (fst (run_main py_repr w)) = []).
Proof.
  by_cases py_repr w; cbn [fst snd stdout stderr].
  all: try (right; left; repeat split; [discriminate | cbn [length]; lia]).
  all: try (right; right; eexists; repeat split; eauto 6; fail).
  all: try (right; right; eexists; (split; [reflexivity|]); (split; [|split; reflexivity]);
            match goal with
            | H : _ = ValueError \/ _ = RecursionError |- _ =>
                destruct H as [-> | ->]; auto 6
            end; fail).
  - left. eauto.
  - right. left. repeat split; [discriminate|].
    destruct ebody as [b|]; [destruct (Utf8.decode b)|]; cbn [length]; lia.
Qed.

(** X2: the script exits with status 0 exactly when the request was answered
    with a response whose body is UTF-8 text that parses as a JSON object
    with [success] being [true] and a [receipt] key, and the text of the
    receipt is one standard output can encode. *)
Theorem exit_zero_iff (py_repr : Json.value -> pystr) (w : World) :
  snd (run_main py_repr w) = Exit 0
  <-> exists secret body sig raw text d receipt,
      reaches_transport w secret body sig
      /\ network w (make_request body sig) = Response raw
      /\ Utf8.decode raw = Some text
      /\ Json.loads (interpreter w) text = Json.Returns (Json.Dict d)
      /\ Json.dict_get d (lit "success") = Some (Json.Bool true)
      /\ Json.dict_get d (lit "receipt") = Some receipt
      /\ forallb (stdout_accepts (stdout_errors w)) (format_value py_repr receipt) = true.
Proof.
  split.
  - by_cases py_repr w; cbn [snd]; try discriminate.
    intros _. exists secret, body, sig, raw, text, d, receipt. auto 10.
  - intros (secret & body & sig & raw & text & d & receipt
            & H & Hn & Hd & Hj & Hok & Hr & Hp).
    rewrite (main_response_receipt py_repr w secret body sig raw text d receipt);
      try assumption; try reflexivity; now rewrite accepts_receipt_line.
Qed.

(** X3: no run sends more than one request, and a run that prints a receipt
    or reports a transport or response failure has sent exactly one. *)
Theorem at_most_one_request (py_repr : Json.value -> pystr) (w : World) :
  (length (sent (fst (run_main py_repr w))) <= 1)%nat
  /\ (stdout (fst (run_main py_repr w)) <> [] ->
      length (sent (fst (run_main py_repr w))) = 1%nat).
Proof.
  by_cases py_repr w; cbn [fst sent stdout length]; split; try lia; try reflexivity.
  all: intros Hc; now destruct Hc.
Qed.

(** ** Further properties of the library calls *)

(** X4: [str.encode("utf-8")] succeeds exactly on the strings without
    surrogates (and without code points above U+10FFFF), and
    [bytes.decode("utf-8")] reads back what it wrote. *)
Theorem utf8_strict (s : pystr) :
  (Utf8.encode s <> None <-> Forall (fun c => Utf8.scalar c = true) s)
  /\ (forall b, Utf8.encode s = Some b -> Utf8.decode b = Some s).
Proof.
  split; [split|].
  - destruct (Utf8.encode s) as [b|] eqn:E; [intros _|congruence].
    now apply (Utf8Facts.encode_Some s b).
  - intros H. destruct (Utf8Facts.encode_scalar s H) as (b & -> & _). discriminate.
  - intros b E. pose proof (Utf8Facts.encode_Some s b E) as H.
    destruct (Utf8Facts.encode_scalar s H) as (b' & E' & D). congruence.
Qed.

(** X5: [json.loads] reads back, as a [str], any string that [json.dumps]
    wrote as a JSON string with [ensure_ascii=False], whatever the limits
    of the interpreter. *)
Theorem loads_encode_basestring (lim : limits) (s : pystr) :
  Json.loads lim (Json.encode_basestring false s) = Json.Returns (Json.Str s).
Proof.
  unfold Json.loads, Json.decode, Json.encode_basestring.
  cbn [app Nat.add]. cbn [Json.skip_ws Json.is_ws N.eqb Pos.eqb orb].
  rewrite JsonFacts2.scan_once_eq. cbn [N.eqb Pos.eqb].
  rewrite JsonFacts.scanstring_escape. reflexivity.
Qed.

(** X6: the canonical serialization determines the six fields: two payloads
    have the same serialization only if they are equal, so a signature over
    the body covers every field. *)
Theorem serialize_injective (ts name email resume repo run
                             ts' name' email' resume' repo' run' : pystr) :
  serialize (payload_dict ts name email resume repo run)
  = serialize (payload_dict ts' name' email' resume' repo' run')
  <-> (ts, name, email, resume, repo, run) = (ts', name', email', resume', repo', run').
Proof.
  split; [|intros H; injection H as -> -> -> -> -> ->; reflexivity].
  intros H.
  assert (Hd : (1 <= recursion_depth default_limits)%nat) by (cbn; lia).
  pose proof (loads_serialize ts name email resume repo run default_limits Hd) as L.
  rewrite H, loads_serialize in L by exact Hd.
  injection L as -> -> -> -> -> ->. reflexivity.
Qed.

(** X7: whatever the input and the limits of the interpreter, [json.loads]
    returns a value, with the whole input read, or raises
    [JSONDecodeError], [ValueError] (the digits limit) or [RecursionError]
    (the depth limit), and nothing else: the budget that makes the scanner
    a terminating definition is never exhausted. *)
Theorem loads_fuel (lim : limits) (s : pystr) :
  Json.decode lim (1 + 2 * length s) s <> Json.OutOfFuel
  /\ (forall v, Json.loads lim s = Json.Returns v
                <-> Json.decode lim (1 + 2 * length s) s = Json.Ok v [])
  /\ (forall e, Json.loads lim s = Json.Raises e ->
                e = JSONDecodeError \/ e = ValueError \/ e = RecursionError)
  /\ (Json.loads lim s = Json.Raises JSONDecodeError
      <-> Json.decode lim (1 + 2 * length s) s = Json.Err).
Proof.
  pose proof (JsonTotal.decode_fuel lim s) as F.
  split; [exact F|].
  split; [|split; [apply JsonTotal.loads_raises|]].
  - unfold Json.loads.
    assert (R : forall v r, Json.decode lim (1 + 2 * length s) s = Json.Ok v r -> r = []).
    { unfold Json.decode. intros v r H.
      destruct (Json.scan_once _ _ _ _) as [v' r'| | |]; try discriminate.
      destruct (Json.skip_ws r'); [|discriminate]. now injection H as _ <-. }
    destruct (Json.decode lim (1 + 2 * length s) s) as [v r| |e|] eqn:E;
      intros v'; (split; [intros H|intros H]); try discriminate.
    + injection H as <-. now rewrite (R v r eq_refl).
    + now injection H as <- _.
  - unfold Json.loads.
    pose proof (fun e => proj1 (JsonTotal.scan_stop lim (1 + 2 * length s))
                           (recursion_depth lim) (Json.skip_ws s) e) as S.
    destruct (Json.decode lim (1 + 2 * length s) s) as [v r| |e|] eqn:E;
      split; intros H; try discriminate; try reflexivity.
    + injection H as ->. exfalso. revert E. unfold Json.decode.
      destruct (Json.scan_once _ _ _ _) as [v' r'| |x|] eqn:E'; try discriminate.
      * destruct (Json.skip_ws r'); discriminate.
      * intros [= ->]. destruct (S _ eq_refl); discriminate.
Qed.

(** X8: only the quote, the backslash and the control characters are
    escaped by the serializer; every other character, non-ASCII ones
    included, is written as it is. *)
Theorem escape_char_literal_iff (c : N) :
  Json.escape_char c = [c] <-> 32 <= c /\ c <> 34 /\ c <> 92.
Proof.
  split.
  - intros H. unfold Json.escape_char, Json.u_escape in H.
    repeat match type of H with
      | (if ?a =? ?b then _ else _) = _ => destruct (N.eqb_spec a b)
      | (if ?a <? ?b then _ else _) = _ => destruct (N.ltb_spec a b)
      end; try discriminate.
    lia.
  - intros (H1 & H2 & H3). now apply JsonFacts.escape_char_literal.
Qed.

(** X9: the key HMAC works with has the block size of SHA-256 whatever the
    length of the secret, and the digest has 32 bytes. *)
Theorem hmac_sizes (key msg : pybytes) :
  length (Hmac.block_key key) = 64%nat /\ length (Hmac.digest key msg) = 32%nat.
Proof.
  split.
  - unfold Hmac.block_key, Hmac.block_size.
    destruct (Nat.ltb_spec 64 (length key)).
    + rewrite length_app, Sha256Facts.digest_length, repeat_length. reflexivity.
    + rewrite length_app, repeat_length. lia.
  - unfold Hmac.digest. apply Sha256Facts.digest_length.
Qed.

(** ** Further properties of the script *)

(** X10: two instants that differ only below the millisecond get the same
    timestamp. *)
Theorem timestamp_same_millisecond (w w' : World) :
  replace_microsecond (utcnow w) 0 = replace_microsecond (utcnow w') 0 ->
  microsecond (utcnow w) / 1000 = microsecond (utcnow w') / 1000 ->
  iso8601_timestamp w = iso8601_timestamp w'.
Proof.
  intros H Hms. unfold iso8601_timestamp. rewrite Hms.
  unfold replace_microsecond in *. injection H as -> -> -> -> -> ->. reflexivity.
Qed.

Lemma timestamp_same_millisecond_witness :
  iso8601_timestamp (sample_world None None (URLFailure []))
  = iso8601_timestamp (world_at (Datetime 2024 2 29 23 59 58 123000)).
Proof.
  apply (timestamp_same_millisecond
           (sample_world None None (URLFailure []))
           (world_at (Datetime 2024 2 29 23 59 58 123000)));
    reflexivity.
Defined.

(** X11: the timestamp of a valid instant has 27 characters, or 20 when the
    instant falls in the first millisecond of a second (the fraction is
    then left out). *)
Theorem timestamp_length (w : World) :
  valid_datetime (utcnow w) ->
  length (iso8601_timestamp w)
  = if microsecond (utcnow w) / 1000 =? 0 then 20%nat else 27%nat.
Proof.
  intros Hv. destruct (iso8601_timestamp_shape w Hv) as [-> _].
  destruct (microsecond (utcnow w) / 1000 =? 0);
    repeat (rewrite ?length_app, ?TextFacts.fixed_length); reflexivity.
Qed.

Lemma timestamp_length_witness :
  length (iso8601_timestamp (sample_world None None (URLFailure []))) = 27%nat.
Proof.
  exact (timestamp_length (sample_world None None (URLFailure []))
           (sample_clock_valid None None (URLFailure []))).
Defined.

(** X12: the request depends on the environment and the clock only: what the
    remote end answers (and how [repr] prints) does not change what is
    sent. *)
Theorem request_independent_of_network (py_repr py_repr' : Json.value -> pystr)
        (w w' : World) :
  environ w = environ w' -> utcnow w = utcnow w' ->
  sent (fst (run_main py_repr w)) = sent (fst (run_main py_repr' w')).
Proof.
  intros He Hc.
  assert (Hp : forall link, payload_of w link = payload_of w' link).
  { intros link. unfold payload_of, os_environ_get, iso8601_timestamp.
    rewrite He, Hc. reflexivity. }
  assert (Hr : forall secret body sig,
             reaches_transport w secret body sig <-> reaches_transport w' secret body sig).
  { intros secret body sig. unfold reaches_transport. rewrite He.
    split; intros (Hs & Hne & (link & Hl & Hb) & Hsig); (split; [exact Hs|]);
      (split; [exact Hne|]); (split; [|exact Hsig]); exists link;
      (split; [exact Hl|]); [rewrite <- Hp | rewrite Hp]; exact Hb. }
  destruct (main_reaches_or_not py_repr w) as [H | (s & b & g & H)];
    destruct (main_reaches_or_not py_repr' w') as [H' | (s' & b' & g' & H')].
  - now rewrite H, H'.
  - apply Hr in H'. rewrite (main_sent py_repr w s' b' g' H') in H. discriminate.
  - apply Hr in H. rewrite (main_sent py_repr' w' s b g H) in H'. discriminate.
  - rewrite (main_sent py_repr w s b g H).
    apply Hr in H. now rewrite (main_sent py_repr' w' s b g H).
Qed.

Lemma request_independent_of_network_witness :
  sent (fst (run_main (fun _ => []) (sample_run (URLFailure []))))
  = sent (fst (run_main (fun _ => [34]) (sample_run (Response (utf8 receipt_response))))).
Proof.
  apply (request_independent_of_network (fun _ => []) (fun _ => [34])
           (sample_run (URLFailure [])) (sample_run (Response (utf8 receipt_response))));
    reflexivity.
Defined.

(** X14: a body that is not UTF-8 ends the script with an uncaught
    [UnicodeDecodeError] when it comes with a response, but is passed over
    when it comes with an [HTTPError], where only the status line is
    printed. *)
Theorem undecodable_body (py_repr : Json.value -> pystr) (w : World)
        (secret : pystr) (body : pybytes) (sig : pystr) (raw : pybytes) :
  reaches_transport w secret body sig ->
  Utf8.decode raw = None ->
  (network w (make_request body sig) = Response raw ->
   run_main py_repr w = (mkIo [] [] [make_request body sig], Raise UnicodeDecodeError))
  /\ (forall code reason,
        network w (make_request body sig) = HTTPFailure code reason (Some raw) ->
        run_main py_repr w
        = (mkIo [] [lit "HTTP error: " ++ Text.dec code ++ lit " " ++ reason]
                [make_request body sig], Exit 1)).
Proof.
  intros H Hd. split.
  - intros Hn. now apply (main_response_undecodable py_repr w secret body sig raw).
  - intros code reason Hn.
    rewrite (main_http_error py_repr w secret body sig code reason (Some raw) H Hn).
    now rewrite Hd.
Qed.

Lemma undecodable_body_witness :
  run_main (fun _ => []) (sample_run (Response [xff]))
  = (mkIo [] [] [sample_request], Raise UnicodeDecodeError)
  /\ run_main (fun _ => []) (sample_run (HTTPFailure 502 (lit "Bad Gateway") (Some [xff])))
     = (mkIo [] [lit "HTTP error: 502 Bad Gateway"] [sample_request], Exit 1).
Proof.
  split.
  - refine (proj1 (undecodable_body (fun _ => []) (sample_run (Response [xff]))
                     sample_secret sample_body sample_signature [xff]
                     (sample_reaches _) _) _); reflexivity.
  - refine (proj2 (undecodable_body (fun _ => [])
                     (sample_run (HTTPFailure 502 (lit "Bad Gateway") (Some [xff])))
                     sample_secret sample_body sample_signature [xff]
                     (sample_reaches _) _) 502 (lit "Bad Gateway") _); reflexivity.
Defined.

(** ** What the encoder rejects *)

Module EncodeFacts.
Import Json.
#[local] Abbreviation esc := (flat_map escape_char).
#[local] Abbreviation scalars := (Forall (fun c => Utf8.scalar c = true)).

(** A character the UTF-8 encoder rejects is never escaped. *)
Lemma escape_char_scalar_inv (c : N) : scalars (escape_char c) -> Utf8.scalar c = true.
Proof.
intros H. destruct (N.lt_ge_cases c 0xD800) as [Hc|Hc].
- apply Utf8Facts.scalar_spec. lia.
- rewrite JsonFacts.escape_char_literal in H by lia.
  now apply List.Forall_cons_iff in H.
Qed.

Lemma esc_scalar_inv (s : pystr) : scalars (esc s) -> scalars s.
Proof.
induction s as [|c r IH]; [constructor|].
cbn [flat_map]. intros H. apply Forall_app in H. destruct H as [Hc Hr].
constructor; [now apply escape_char_scalar_inv | now apply IH].
Qed.

Lemma serialize_scalar_inv (ts name email resume repo run : pystr) :
scalars (serialize (payload_dict ts name email resume repo run)) ->
scalars (ts ++ name ++ email ++ resume ++ repo ++ run).
Proof.
intros H. rewrite serialize_cons in H.
repeat match type of H with
  | Forall _ (_ :: _) => apply List.Forall_cons_iff in H; destruct H as [_ H]
  | Forall _ (_ ++ _) =>
      let E := fresh "E" in apply Forall_app in H; destruct H as [E H];
      apply esc_scalar_inv in E
  end.
repeat (apply Forall_app; split); assumption.
Qed.

(** The serialized payload can be encoded exactly when the six fields
  can. *)
Lemma encode_serialize_iff (ts name email resume repo run : pystr) :
Utf8.encode (serialize (payload_dict ts name email resume repo run)) <> None
<-> scalars (ts ++ name ++ email ++ resume ++ repo ++ run).
Proof.
split.
- intros H. apply serialize_scalar_inv.
  destruct (Utf8.encode _) as [b|] eqn:E; [|congruence].
  now apply (Utf8Facts.encode_Some _ b).
- intros H. apply serialize_scalar in H.
  destruct (Utf8Facts.encode_scalar _ H) as (b & -> & _). discriminate.
Qed.

End EncodeFacts.

(** X15: with the secret and the run link set, the script ends with an
    uncaught [UnicodeEncodeError], nothing printed and nothing sent, exactly
    when the secret or one of the six field values holds a code point that
    UTF-8 cannot encode (a lone surrogate). *)
Theorem unencodable_input_raises (py_repr : Json.value -> pystr) (w : World)
        (secret link : pystr) :
  environ w !! "B12_SIGNING_SECRET" = Some secret -> secret <> [] ->
  environ w !! "B12_ACTION_RUN_LINK" = Some link ->
  run_main py_repr w = (mkIo [] [] [], Raise UnicodeEncodeError)
  <-> ~ Forall (fun c => Utf8.scalar c = true)
        (secret ++ iso8601_timestamp w
         ++ os_environ_get w "B12_NAME" (lit "Donovan Piper")
         ++ os_environ_get w "B12_EMAIL" (lit "do.piper.eng@outlook.com")
         ++ os_environ_get w "B12_RESUME_LINK" (lit "https://donovan-piper.netlify.app/")
         ++ os_environ_get w "B12_REPOSITORY_LINK" (lit "https://github.com/novancore")
         ++ link).
Proof.
  intros Hs Hne Hl.
  pose proof (EncodeFacts.encode_serialize_iff (iso8601_timestamp w)
                (os_environ_get w "B12_NAME" (lit "Donovan Piper"))
                (os_environ_get w "B12_EMAIL" (lit "do.piper.eng@outlook.com"))
                (os_environ_get w "B12_RESUME_LINK" (lit "https://donovan-piper.netlify.app/"))
                (os_environ_get w "B12_REPOSITORY_LINK" (lit "https://github.com/novancore"))
                link) as Hfields.
  fold (payload_of w link) in Hfields.
  split.
  - intros Hrun Hall. apply Forall_app in Hall. destruct Hall as [Hsec Hpay].
    apply Hfields in Hpay.
    destruct (Utf8.encode (serialize (payload_of w link))) as [body|] eqn:He;
      [|congruence].
    destruct (Utf8Facts.encode_scalar secret Hsec) as (key & Hkey & _).
    assert (Hreach : reaches_transport w secret body
                       (lit "sha256=" ++ Hmac.hexdigest key body)).
    { unfold reaches_transport, compute_signature. rewrite Hkey. eauto 10. }
    pose proof (main_sent py_repr w _ _ _ Hreach) as Hsent.
    rewrite Hrun in Hsent. discriminate.
  - intros Hnot.
    destruct (Utf8.encode (serialize (payload_of w link))) as [body|] eqn:He;
      [|now apply (main_unencodable_body py_repr w secret link)].
    apply (main_unencodable_secret py_repr w secret link body); try assumption.
    unfold compute_signature.
    destruct (Utf8.encode secret) as [key|] eqn:Hkey; [|reflexivity].
    exfalso. apply Hnot. apply Forall_app. split.
    + now apply (Utf8Facts.encode_Some secret key).
    + apply Hfields. congruence.
Qed.

Lemma unencodable_input_raises_witness :
  run_main (fun _ => []) (sample_world (Some sample_secret) (Some [0xDCFF]) (URLFailure []))
  = (mkIo [] [] [], Raise UnicodeEncodeError)
  <-> ~ Forall (fun c => Utf8.scalar c = true)
        (sample_secret
         ++ iso8601_timestamp (sample_world (Some sample_secret) (Some [0xDCFF]) (URLFailure []))
         ++ lit "Donovan Piper" ++ lit "do.piper.eng@outlook.com"
         ++ lit "https://donovan-piper.netlify.app/" ++ lit "https://github.com/novancore"
         ++ [0xDCFF]).
Proof.
  apply (unencodable_input_raises (fun _ => [])
           (sample_world (Some sample_secret) (Some [0xDCFF]) (URLFailure []))
           sample_secret [0xDCFF]); [reflexivity | discriminate | reflexivity].
Defined.

(** ** Decimal numerals *)

Module DecFacts.
Import Text.

Lemma digits_value_snoc (d : pystr) (c : N) :
Json.digits_value (d ++ [c]) = (10 * Json.digits_value d + Z.of_N (c - 48))%Z.
Proof. unfold Json.digits_value. now rewrite fold_left_app. Qed.

Lemma fixed_value (w : nat) (n : N) :
Json.digits_value (fixed w n) = Z.of_N (n mod 10 ^ N.of_nat w).
Proof.
revert n. induction w as [|k IH]; intros n.
- cbn [fixed]. now rewrite N.mod_1_r.
- cbn [fixed]. rewrite digits_value_snoc, IH.
  rewrite Nat2N.inj_succ, N.pow_succ_r', N.Div0.mod_mul_r.
  replace (48 + n mod 10 - 48) with (n mod 10) by lia. lia.
Qed.

Lemma fixed_digits (w : nat) (n : N) :
Forall (fun c => Json.is_digit c = true) (fixed w n).
Proof.
revert n. induction w as [|k IH]; intros n; [constructor|].
cbn [fixed]. apply Forall_app. split; [apply IH|].
constructor; [|constructor]. unfold Json.is_digit.
apply andb_true_iff. split; apply N.leb_le; lia.
Qed.

Lemma strip_zeros_value (d : pystr) :
Json.digits_value (strip_zeros d) = Json.digits_value d.
Proof.
induction d as [|c r IH]; [reflexivity|].
cbn [strip_zeros]. destruct r as [|c' r']; [reflexivity|].
destruct (N.eqb_spec c 48) as [->|]; [|reflexivity].
rewrite IH. reflexivity.
Qed.

Lemma strip_zeros_digits (d : pystr) :
Forall (fun c => Json.is_digit c = true) d ->
Forall (fun c => Json.is_digit c = true) (strip_zeros d).
Proof.
induction 1 as [|c r Hc Hr IH]; [constructor|].
cbn [strip_zeros]. destruct r as [|c' r']; [now constructor|].
destruct (c =? 48); [exact IH | now constructor].
Qed.

(** What is left has no leading zero, unless it is the one digit. *)
Lemma strip_zeros_head (d : pystr) :
d <> [] -> exists c r, strip_zeros d = c :: r /\ (c = 48 -> r = []).
Proof.
induction d as [|c r IH]; [congruence|]. intros _.
cbn [strip_zeros]. destruct r as [|c' r']; [now exists c, []|].
destruct (N.eqb_spec c 48) as [->|Hc].
- apply IH. discriminate.
- exists c, (c' :: r'). split; [reflexivity | congruence].
Qed.

Lemma log2_bound (n : N) : n < 10 ^ N.of_nat (S (N.to_nat (N.log2 n))).
Proof.
rewrite Nat2N.inj_succ, N2Nat.id.
destruct (N.eq_dec n 0) as [->|Hn]; [reflexivity|].
apply N.lt_le_trans with (2 ^ N.succ (N.log2 n)).
- apply N.log2_spec. lia.
- apply N.pow_le_mono_l. lia.
Qed.

Lemma fixed_nonempty (w : nat) (n : N) : fixed (S w) n <> [].
Proof. cbn [fixed]. intros H. now apply app_eq_nil in H as [_ H]. Qed.

End DecFacts.

(** X16: [str(n)] of a non-negative [int], as the script prints the status
    code and an integer receipt, is the decimal numeral of [n]: digits only,
    no leading zero, and of value [n]. *)
Theorem dec_numeral (n : N) :
  Json.digits_value (Text.dec n) = Z.of_N n
  /\ Forall (fun c => Json.is_digit c = true) (Text.dec n)
  /\ exists c r, Text.dec n = c :: r /\ (c = 48 -> r = []).
Proof.
  unfold Text.dec. split; [|split].
  - rewrite DecFacts.strip_zeros_value, DecFacts.fixed_value.
    rewrite N.mod_small by apply DecFacts.log2_bound. reflexivity.
  - apply DecFacts.strip_zeros_digits, DecFacts.fixed_digits.
  - apply DecFacts.strip_zeros_head, DecFacts.fixed_nonempty.
Qed.

(** X17: something is written to standard output exactly when the script
    exits with status 0, and then nothing is written to standard error. *)
Theorem receipt_iff_success (py_repr : Json.value -> pystr) (w : World) :
  (stdout (fst (run_main py_repr w)) <> [] <-> snd (run_main py_repr w) = Exit 0)
  /\ (snd (run_main py_repr w) = Exit 0 -> stderr (fst (run_main py_repr w)) = []).
Proof.
  by_cases py_repr w; cbn [fst snd stdout stderr]; split; try split;
    try discriminate; try reflexivity; try congruence.
Qed.

(** ** Receipts that are not strings *)

Lemma digit_scalar (c : N) : Json.is_digit c = true -> Utf8.scalar c = true.
Proof.
  unfold Json.is_digit. intros H. apply andb_true_iff in H. destruct H as [H1 H2].
  apply N.leb_le in H1. apply N.leb_le in H2. apply Utf8Facts.scalar_spec. lia.
Qed.

Lemma dec_scalar (n : N) : Forall (fun c => Utf8.scalar c = true) (Text.dec n).
Proof.
  apply (List.Forall_impl _ digit_scalar).
  apply DecFacts.strip_zeros_digits, DecFacts.fixed_digits.
Qed.

Lemma dec_Z_scalar (z : Z) : Forall (fun c => Utf8.scalar c = true) (Text.dec_Z z).
Proof.
  unfold Text.dec_Z. destruct (z <? 0)%Z; [constructor; [reflexivity|]|]; apply dec_scalar.
Qed.

(** X13: a receipt that is not a string is accepted as well and printed the
    way Python prints the value: [null] as [None], [true] and [false] as
    [True] and [False], an integer in decimal. *)
Theorem receipt_not_a_string (py_repr : Json.value -> pystr) (w : World)
        (secret : pystr) (body : pybytes) (sig : pystr) (raw : pybytes) (text : pystr)
        (d : list (pystr * Json.value)) :
  reaches_transport w secret body sig ->
  network w (make_request body sig) = Response raw ->
  Utf8.decode raw = Some text ->
  Json.loads (interpreter w) text = Json.Returns (Json.Dict d) ->
  Json.dict_get d (lit "success") = Some (Json.Bool true) ->
  (Json.dict_get d (lit "receipt") = Some Json.Null ->
   run_main py_repr w
   = (mkIo [lit "Submission receipt: None"] [] [make_request body sig], Exit 0))
  /\ (forall b, Json.dict_get d (lit "receipt") = Some (Json.Bool b) ->
      run_main py_repr w
      = (mkIo [lit "Submission receipt: " ++ (if b then lit "True" else lit "False")] []
              [make_request body sig], Exit 0))
  /\ (forall z, Json.dict_get d (lit "receipt") = Some (Json.Int z) ->
      run_main py_repr w
      = (mkIo [lit "Submission receipt: " ++ Text.dec_Z z] [] [make_request body sig],
         Exit 0)).
Proof.
  intros H Hn Hd Hj Hok. split; [|split].
  - intros Hr.
    now rewrite (main_response_receipt py_repr w secret body sig raw text d _
                   H Hn Hd Hj Hok Hr eq_refl).
  - intros b Hr.
    rewrite (main_response_receipt py_repr w secret body sig raw text d _
               H Hn Hd Hj Hok Hr); now destruct b.
  - intros z Hr.
    rewrite (main_response_receipt py_repr w secret body sig raw text d _
               H Hn Hd Hj Hok Hr); [reflexivity|].
    rewrite accepts_receipt_line. apply LimitFacts.accepts_scalar, dec_Z_scalar.
Qed.

Lemma receipt_not_a_string_witness :
  run_main (fun _ => [])
    (sample_run (Response (utf8 (lit "{" ++ jq "receipt" ++ lit ": null, "
                                 ++ jq "success" ++ lit ": true}"))))
  = (mkIo [lit "Submission receipt: None"] [] [sample_request], Exit 0).
Proof.
  refine (proj1 (receipt_not_a_string (fun _ => [])
                   (sample_run (Response (utf8 (lit "{" ++ jq "receipt" ++ lit ": null, "
                                                ++ jq "success" ++ lit ": true}"))))
                   sample_secret sample_body sample_signature
                   (utf8 (lit "{" ++ jq "receipt" ++ lit ": null, "
                          ++ jq "success" ++ lit ": true}"))
                   (lit "{" ++ jq "receipt" ++ lit ": null, " ++ jq "success" ++ lit ": true}")
                   [(lit "receipt", Json.Null); (lit "success", Json.Bool true)]
                   (sample_reaches _) _ _ _ _) _); reflexivity.
Defined.

(** ** Responses beyond the limits of the interpreter *)

Module LimitCases.
Import Json JsonFacts2.
#[local] Open Scope nat_scope.






End LimitCases.




